(** * E-cash driver: acceptance and cheater determination

    A shallow embedding of [src/driver.js]: the functions
    [verifySignature], [acceptCoin] and [determineCheater], together with
    the fragment of JavaScript they rely on (strict equality, property
    access on [undefined], exceptions and [try]/[catch], the console, the
    random source).

    What [driver.js] imports from other modules ([./coin.js], [./utils.js],
    the npm packages [blind-signatures] and [jsbn]) is not part of the file:
    it enters the development as Section variables, so every theorem holds
    for any implementation of these collaborators. *)

From Stdlib Require Import String Ascii List ZArith Lia Bool.
From Stdlib Require Import Strings.Byte.
From Stdlib Require Import DecimalString.
Import ListNotations.
Open Scope string_scope.

(** ** JavaScript values *)

(** The values that flow through the driver.  A [Buffer] is a heap object:
    it carries the address that gives it its identity next to its bytes
    (the driver never writes to a Buffer, so the bytes can travel with the
    reference).  Two occurrences of the same address are the same
    object. *)
Inductive jsval : Type :=
| JUndefined
| JNull
| JBool (b : bool)
| JNaN
| JNum (z : Z)
| JString (s : string)
| JBuffer (addr : nat) (bytes : list byte).

(** [a === b]: primitives by value, [NaN] equal to nothing, objects by
    identity. *)
Definition strict_eq (a b : jsval) : bool :=
  match a, b with
  | JUndefined, JUndefined => true
  | JNull, JNull => true
  | JBool x, JBool y => Bool.eqb x y
  | JNum x, JNum y => Z.eqb x y
  | JString x, JString y => String.eqb x y
  | JBuffer x _, JBuffer y _ => Nat.eqb x y
  | _, _ => false
  end.

(** [a !== b] *)
Definition strict_neq (a b : jsval) : bool := negb (strict_eq a b).

(** ** Exceptions *)

Inductive error_class : Type := Error | TypeError | ReferenceError.

Record js_error : Type := mkError
  { err_class : error_class;
    err_message : string }.

Inductive outcome (A : Type) : Type :=
| Ok (a : A)
| Throw (e : js_error).
Arguments Ok {A} a.
Arguments Throw {A} e.

(** ** Strings *)

Definition nl : string := String (ascii_of_nat 10) EmptyString.

Definition string_of_nat (n : nat) : string :=
  NilZero.string_of_uint (Nat.to_uint n).

Definition string_of_Z (z : Z) : string :=
  NilZero.string_of_int (Z.to_int z).

(** [buf.toString()] and [Buffer.from(string)]: text is kept as its
    sequence of code units, one byte each. *)
Definition buffer_toString (b : list byte) : string := string_of_list_byte b.

(** The string a template literal [`${v}`] inserts for [v]. *)
Definition display (v : jsval) : string :=
  match v with
  | JUndefined => "undefined"
  | JNull => "null"
  | JBool true => "true"
  | JBool false => "false"
  | JNaN => "NaN"
  | JNum z => string_of_Z z
  | JString s => s
  | JBuffer _ b => buffer_toString b
  end.

(** [s.split(sep)] for a one-character separator: never empty. *)
Fixpoint split_on (sep : ascii) (s : string) : list string :=
  match s with
  | EmptyString => [EmptyString]
  | String c s' =>
      if Ascii.eqb c sep then EmptyString :: split_on sep s'
      else match split_on sep s' with
           | [] => [String c EmptyString]
           | h :: t => String c h :: t
           end
  end.

(** [arr[i]] on an array of strings, [undefined] out of range. *)
Definition index_string (l : list string) (i : nat) : jsval :=
  match nth_error l i with
  | Some s => JString s
  | None => JUndefined
  end.

(** [arr[i]] on an array of values, [undefined] out of range. *)
Definition index_val (l : list jsval) (i : nat) : jsval :=
  nth i l JUndefined.

(** How the message of an argument error names the value received:
    [undefined] and [null] as they are, other primitives with their type
    and their value. *)
Definition received (v : jsval) : string :=
  match v with
  | JUndefined => "undefined"
  | JNull => "null"
  | JBool true => "type boolean (true)"
  | JBool false => "type boolean (false)"
  | JNaN => "type number (NaN)"
  | JNum z => "type number (" ++ string_of_Z z ++ ")"
  | JString s => "type string ('" ++ s ++ "')"
  | JBuffer _ _ => "an instance of Buffer"
  end.

(** [Buffer.from(v)]: a string gives its bytes, a Buffer is copied, and
    [undefined], [null], booleans and numbers raise a [TypeError] whose
    message ends on the value received. *)
Definition Buffer_from (v : jsval) : outcome (list byte) :=
  match v with
  | JString s => Ok (list_byte_of_string s)
  | JBuffer _ b => Ok b
  | _ => Throw (mkError TypeError
           ("The first argument must be of type string or an instance of Buffer, ArrayBuffer, or Array or an Array-like Object. Received "
              ++ received v))
  end.

(** [v.toString()]: a [TypeError] on [undefined] and [null]. *)
Definition toString_method (v : jsval) : outcome string :=
  match v with
  | JUndefined =>
      Throw (mkError TypeError "Cannot read properties of undefined (reading 'toString')")
  | JNull =>
      Throw (mkError TypeError "Cannot read properties of null (reading 'toString')")
  | _ => Ok (display v)
  end.

(** The values [!v] does not negate to [true]. *)
Definition truthy (v : jsval) : bool :=
  match v with
  | JUndefined | JNull | JNaN => false
  | JBool b => b
  | JNum z => negb (Z.eqb z 0)
  | JString s => negb (String.eqb s "")
  | JBuffer _ _ => true
  end.

(** ** The world: console and random source *)

Inductive event : Type :=
| ConsoleLog (line : string)
| ConsoleError (line : string)
| RandomInt (drawn : Z)
| GetRis (selectLeft : bool) (i : nat).

(** [rng_calls] counts the calls to [crypto.randomInt] made so far;
    [events] is what happened, oldest first. *)
Record world : Type := mkWorld
  { rng_calls : nat;
    events : list event }.

(** A computation that may throw and that acts on the world. *)
Definition M (A : Type) : Type := world -> outcome A * world.

Definition ret {A} (a : A) : M A := fun w => (Ok a, w).

Definition bind {A B} (m : M A) (k : A -> M B) : M B :=
  fun w =>
    match m w with
    | (Ok a, w') => k a w'
    | (Throw e, w') => (Throw e, w')
    end.

Definition throw {A} (e : js_error) : M A := fun w => (Throw e, w).

(** [try { body } catch (e) { handler e }] *)
Definition try_catch {A} (body : M A) (handler : js_error -> M A) : M A :=
  fun w =>
    match body w with
    | (Ok a, w') => (Ok a, w')
    | (Throw e, w') => handler e w'
    end.

(** An expression that only computes a value or throws. *)
Definition lift {A} (o : outcome A) : M A := fun w => (o, w).

(** The world after one more event. *)
Definition record (w : world) (e : event) : world :=
  mkWorld (rng_calls w) (events w ++ [e]).

Definition emit (e : event) : M unit := fun w => (Ok tt, record w e).

Definition console_log (line : string) : M unit := emit (ConsoleLog line).
Definition console_error (line : string) : M unit := emit (ConsoleError line).

Declare Scope js_scope.
Delimit Scope js_scope with js.
Notation "x <- m ;; k" := (bind m (fun x => k))
  (at level 61, m at next level, right associativity) : js_scope.
Notation "m ;;; k" := (bind m (fun _ => k))
  (at level 61, right associativity) : js_scope.
Open Scope js_scope.

(** ** Acceptance transcripts *)

(** The object literal pushed by [acceptCoin]. *)
Record RisElement : Type := mkRis
  { position : nat;
    isLeft : bool;
    value : jsval;
    hash : jsval }.

(** An argument of [determineCheater]: an array of RIS elements, or
    something [Array.isArray] rejects. *)
Inductive js_arg : Type :=
| NotArray (v : jsval)
| JArray (elems : list RisElement).

(** [ris[i].value]: an index past the end yields [undefined], and reading
    a property of [undefined] raises a [TypeError]. *)
Definition value_at (ris : list RisElement) (i : nat) : outcome jsval :=
  match nth_error ris i with
  | Some r => Ok (value r)
  | None =>
      Throw (mkError TypeError "Cannot read properties of undefined (reading 'value')")
  end.

(** A coin as the driver sees it: the [signature] property ([undefined]
    until the bank signed), the [guid], and the methods [toString()] and
    [getRis(isLeft, i)] of the class [Coin] of [./coin.js]. *)
Record Coin : Type := mkCoin
  { signature : jsval;
    guid : jsval;
    coin_toString : outcome string;
    getRis : bool -> nat -> outcome jsval }.

(** [coin.signature = v] *)
Definition set_signature (coin : Coin) (v : jsval) : Coin :=
  mkCoin v (guid coin) (coin_toString coin) (getRis coin).

(** How [main] ends: it returns, or [process.exit(code)] ends the
    process. *)
Inductive completion : Type :=
| Returned
| ProcessExit (code : Z).

(** ** The collaborators, from the spec *)

Definition xor_byte (a b : byte) : byte :=
  let '(a0, (a1, (a2, (a3, (a4, (a5, (a6, a7))))))) := Byte.to_bits a in
  let '(b0, (b1, (b2, (b3, (b4, (b5, (b6, b7))))))) := Byte.to_bits b in
  Byte.of_bits
    (xorb a0 b0, (xorb a1 b1, (xorb a2 b2, (xorb a3 b3,
    (xorb a4 b4, (xorb a5 b5, (xorb a6 b6, xorb a7 b7))))))).

Fixpoint xor_bytes (a b : list byte) : list byte :=
  match a, b with
  | x :: a', y :: b' => xor_byte x y :: xor_bytes a' b'
  | _, _ => []
  end.

(** Modelled from the spec: [utils.decryptOTP] of [./utils.js], called with
    [returnType: 'string'].  Section 6 asks for "a symmetric, involutive
    XOR-style operation over equal-length byte strings"; operands of
    different lengths are refused with an error. *)
Definition otp_decrypt (key ciphertext : list byte) : outcome string :=
  if Nat.eqb (length key) (length ciphertext) then
    Ok (buffer_toString (xor_bytes key ciphertext))
  else
    Throw (mkError Error
             "The length of the key must match the length of the ciphertext.").

(** [IDENT_STR + ":" + purchaserIdentity] *)
Definition identity_string (ident purchaser : string) : string :=
  ident ++ ":" ++ purchaser.

(** Modelled from the spec: the shares of a coin of [./coin.js] (sections
    3 and 4.1).  The left share of position [i] is a random pad as long as
    the identity string, the right share is this pad combined with the
    identity string. *)
Definition left_share (ident purchaser : string) (pads : nat -> nat -> byte)
    (i : nat) : list byte :=
  map (pads i) (seq 0 (String.length (identity_string ident purchaser))).

Definition right_share (ident purchaser : string) (pads : nat -> nat -> byte)
    (i : nat) : list byte :=
  xor_bytes (left_share ident purchaser pads i)
    (list_byte_of_string (identity_string ident purchaser)).

(** Modelled from the spec: a coin of [./coin.js] with [n] positions built
    for [purchaser].  Every share is a Buffer of its own, and [getRis]
    hands out the same Buffer at every call (section 4.3, step 2); past
    the last position the arrays of shares hold nothing. *)
Definition spec_coin (n : nat) (ident purchaser : string)
    (pads : nat -> nat -> byte) (sig id : jsval) (text : string) : Coin :=
  {| signature := sig;
     guid := id;
     coin_toString := Ok text;
     getRis := fun selectLeft i =>
       if Nat.ltb i n then
         Ok (if selectLeft
             then JBuffer (2 * i) (left_share ident purchaser pads i)
             else JBuffer (2 * i + 1) (right_share ident purchaser pads i))
       else Ok JUndefined |}.

(** ** Stand-ins for concrete runs

    The theorems hold for every hash, signature scheme and random source;
    the runs below need some. *)

Definition sample_hash (v : jsval) : outcome string :=
  match toString_method v with
  | Ok s => Ok ("#" ++ s)
  | Throw e => Throw e
  end.

(** [new BigInteger(s)] reads a decimal numeral. *)
Definition sample_BigInteger (s : string) : outcome Z :=
  match NilZero.int_of_string s with
  | Some d => Ok (Z.of_int d)
  | None => Ok 0%Z
  end.

(** Textbook RSA on a digest that is the length of the message. *)
Definition sample_verify (unblinded n e : Z) (message : string) : outcome bool :=
  Ok (Z.eqb (Z.modulo (Z.pow unblinded e) n)
            (Z.modulo (Z.of_nat (String.length message)) n)).

Definition sample_pads (i j : nat) : byte :=
  match Byte.of_nat (Nat.modulo (17 * i + 5 * j + 3) 256) with
  | Some b => b
  | None => x00
  end.

(** Two merchants: the first two draws choose left, the next two right. *)
Definition sample_draws (k : nat) : Z := Z.of_nat (Nat.modulo (Nat.div k 2) 2).

Definition alice_coin : Coin :=
  spec_coin 2 "IDENT" "alice" sample_pads (JString "16") (JString "c0ffee") "coin".

(** The digest [sample_hash] gives a share. *)
Definition commitment (share : list byte) : jsval :=
  JString ("#" ++ buffer_toString share).

(** The commitments of [alice_coin], as a [parseCoin] would return them. *)
Definition alice_leftHashes : list jsval :=
  map (fun i => commitment (left_share "IDENT" "alice" sample_pads i)) [0; 1].

Definition alice_rightHashes : list jsval :=
  map (fun i => commitment (right_share "IDENT" "alice" sample_pads i)) [0; 1].

Definition alice_hashes (s : string) : outcome (list jsval * list jsval) :=
  Ok (alice_leftHashes, alice_rightHashes).

(** Commitments that do not match the shares of position 1. *)
Definition forged_leftHashes : list jsval :=
  [commitment (left_share "IDENT" "alice" sample_pads 0); JString "#forged"].

Definition forged_rightHashes : list jsval :=
  [commitment (right_share "IDENT" "alice" sample_pads 0); JString "#forged"].

Definition forged_hashes (s : string) : outcome (list jsval * list jsval) :=
  Ok (forged_leftHashes, forged_rightHashes).

Definition world0 : world := mkWorld 0 [].

(** A coin the bank has not signed. *)
Definition unsigned_coin : Coin :=
  spec_coin 2 "IDENT" "alice" sample_pads JUndefined (JString "c0ffee") "coin".

(** What an acceptance of [alice_coin] records at position [i] for either
    side. *)
Definition left_element (i : nat) : RisElement :=
  mkRis i true
    (JBuffer (2 * i) (left_share "IDENT" "alice" sample_pads i))
    (commitment (left_share "IDENT" "alice" sample_pads i)).

Definition right_element (i : nat) : RisElement :=
  mkRis i false
    (JBuffer (2 * i + 1) (right_share "IDENT" "alice" sample_pads i))
    (commitment (right_share "IDENT" "alice" sample_pads i)).

Definition transcript_LL : list RisElement := [left_element 0; left_element 1].
Definition transcript_LR : list RisElement := [left_element 0; right_element 1].
Definition transcript_RR : list RisElement := [right_element 0; right_element 1].

(** One element too many. *)
Definition transcript_long : list RisElement :=
  [left_element 0; left_element 1; right_element 0].

(** Transcripts whose first values are numbers, which [Buffer.from]
    refuses. *)
Definition transcript_garbled_1 : list RisElement :=
  [mkRis 0 true (JNum 1) JUndefined; left_element 1].

Definition transcript_garbled_2 : list RisElement :=
  [mkRis 0 false (JNum 2) JUndefined; right_element 1].

(** The bank signs with the private exponent of the textbook key. *)
Definition sample_sign (blinded d : Z) : outcome Z :=
  Ok (Z.modulo (Z.pow blinded d) 33).


(** The purchaser's side of the issuance, with a blinding factor of 1:
    the coin is built unsigned, its blinded message is the digest of its
    string, and unblinding leaves the signature as it is. *)
Definition sample_new_Coin (purchaser : string) (amount : Z) (n e : string)
  : outcome Coin :=
  Ok (spec_coin 2 "IDENT" purchaser sample_pads JUndefined (JString "c0ffee")
        "coin").

Definition sample_blinded (coin : Coin) : jsval := JString "4".

Definition sample_unblind (coin : Coin) : outcome Coin := Ok coin.

(** A coin whose shares cannot be read past position 0. *)
Definition broken_coin : Coin :=
  mkCoin (JString "16") (JString "c0ffee") (Ok "coin")
    (fun selectLeft i =>
       if Nat.eqb i 0 then getRis alice_coin selectLeft i
       else Throw (mkError Error "share unavailable")).

(** Commitments for position 0 only. *)
Definition short_hashes (s : string) : outcome (list jsval * list jsval) :=
  Ok ([commitment (left_share "IDENT" "alice" sample_pads 0)],
      [commitment (right_share "IDENT" "alice" sample_pads 0)]).

(** Two values that combine to ["IDENT"], without a colon, and two that
    combine to ["IDENT:al:ice"]. *)
Definition zeros (n : nat) : list byte := repeat x00 n.

Definition transcript_zeros : list RisElement :=
  [mkRis 0 true (JBuffer 0 (zeros 5)) JUndefined;
   mkRis 1 true (JBuffer 2 (zeros 12)) JUndefined].

Definition transcript_nocolon : list RisElement :=
  [mkRis 0 false (JString "IDENT") JUndefined;
   mkRis 1 false (JString "IDENT:al:ice") JUndefined].

Definition transcript_twocolons : list RisElement :=
  [mkRis 0 false (JBuffer 0 (zeros 5)) JUndefined;
   mkRis 1 false (JString "IDENT:al:ice") JUndefined].



(** ** The scope of driver.js *)

(** The names [driver.js] binds at its top level: the [require]d modules
    and the names destructured from [./coin.js] (lines 2-7), [BANK_KEY],
    [N], [E] and the five functions. *)
Definition driver_bindings : list string :=
  ["blindSignatures"; "BigInteger"; "crypto";
   "Coin"; "COIN_RIS_LENGTH"; "IDENT_STR"; "BANK_STR"; "utils";
   "BANK_KEY"; "N"; "E";
   "signCoin"; "verifySignature"; "acceptCoin"; "determineCheater"; "main"].

(** The names bound inside [acceptCoin]: its parameter and its [const]
    and [let] declarations. *)
Definition acceptCoin_bindings : list string :=
  ["coin"; "leftHashes"; "rightHashes"; "risElements"; "i";
   "selectLeft"; "element"; "expectedHash"].

(** The identifier is bound in the function or in the module. *)
Definition bound_in_acceptCoin (x : string) : bool :=
  existsb (String.eqb x) (acceptCoin_bindings ++ driver_bindings).

Section Driver.

(** Constants exported by [./coin.js]. *)
Variable COIN_RIS_LENGTH : nat.
Variable IDENT_STR : string.

(** [utils.decryptOTP({key, ciphertext, returnType: 'string'})] and
    [utils.hash(v)] of [./utils.js]. *)
Variable decryptOTP : list byte -> list byte -> outcome string.
Variable utils_hash : jsval -> outcome string.

(** The class [BigInteger] of [jsbn], the bank's public key [N], [E]
    (lines 23-24) and [blindSignatures.verify({unblinded, N, E, message})]. *)
Variable BigInteger : Type.
Variable new_BigInteger : string -> outcome BigInteger.
Variable N E : BigInteger.
Variable blindSignatures_verify :
  BigInteger -> BigInteger -> BigInteger -> string -> outcome bool.

(** [crypto.randomInt(0, 2)]: the integer returned by the k-th call. *)
Variable randomInt : nat -> Z.

(** [parseCoin], called at line 65, is bound nowhere in the file: what the
    identifier resolves to in the global scope, if anything.  Such a
    function takes the coin string and returns the pair destructured into
    [leftHashes] and [rightHashes]. *)
Variable parseCoin : option (string -> outcome (list jsval * list jsval)).

(** [BANK_KEY] (lines 10-20), [blindSignatures.sign({blinded, key})] and
    the [toString()] of a [BigInteger]. *)
Variable BankKey : Type.
Variable BANK_KEY : BankKey.
Variable blindSignatures_sign : BigInteger -> BankKey -> outcome BigInteger.
Variable BigInteger_toString : BigInteger -> string.

(** The class [Coin] of [./coin.js] as [main] uses it:
    [new Coin(purchaser, amount, n, e)], the property [coin.blinded], and
    [coin.unblind()], which yields the coin as the call leaves it. *)
Variable new_Coin : string -> Z -> string -> string -> outcome Coin.
Variable coin_blinded : Coin -> jsval.
Variable coin_unblind : Coin -> outcome Coin.

(** *** verifySignature (lines 45-57) *)

Definition verifySignature (coin : Coin) : M bool :=
  try_catch
    (sig <- lift (toString_method (signature coin)) ;;
     unblinded <- lift (new_BigInteger sig) ;;
     message <- lift (coin_toString coin) ;;
     lift (blindSignatures_verify unblinded N E message))
    (fun e =>
       console_error ("Verification error: " ++ err_message e) ;;;
       ret false).

(** *** acceptCoin (lines 60-86) *)

Definition draw : M Z :=
  fun w =>
    let k := randomInt (rng_calls w) in
    (Ok k, mkWorld (S (rng_calls w)) (events w ++ [RandomInt k])).

Definition call_getRis (coin : Coin) (selectLeft : bool) (i : nat) : M jsval :=
  emit (GetRis selectLeft i) ;;;
  lift (getRis coin selectLeft i).

Definition tamper_error (i : nat) : js_error :=
  mkError Error ("RIS validation failed at position " ++ string_of_nat i).

(** The loop of lines 68-83, [n] turns from position [i] on, with the
    elements pushed so far. *)
Fixpoint accept_loop (coin : Coin) (leftHashes rightHashes : list jsval)
    (n i : nat) (risElements : list RisElement) : M (list RisElement) :=
  match n with
  | O => ret risElements
  | S n' =>
      k <- draw ;;
      let selectLeft := (k =? 0)%Z in
      element <- call_getRis coin selectLeft i ;;
      let expectedHash :=
        if selectLeft then index_val leftHashes i else index_val rightHashes i in
      h <- lift (utils_hash element) ;;
      if strict_neq (JString h) expectedHash then throw (tamper_error i)
      else
        accept_loop coin leftHashes rightHashes n' (S i)
          (risElements ++ [mkRis i selectLeft element expectedHash])
  end.

Definition acceptCoin (coin : Coin) : M (list RisElement) :=
  valid <- verifySignature coin ;;
  if negb valid then
    throw (mkError Error "Invalid coin signature: Potential forgery detected")
  else
    match parseCoin with
    | None => throw (mkError ReferenceError "parseCoin is not defined")
    | Some parse =>
        s <- lift (coin_toString coin) ;;
        hashes <- lift (parse s) ;;
        accept_loop coin (fst hashes) (snd hashes) COIN_RIS_LENGTH 0 []
    end.

(** *** determineCheater (lines 89-116) *)

(** The argument of [utils.decryptOTP] at lines 97-101: the two Buffers
    are built first, key before ciphertext. *)
Definition decrypt_values (v1 v2 : jsval) : outcome string :=
  match Buffer_from v1 with
  | Throw e => Throw e
  | Ok key =>
      match Buffer_from v2 with
      | Throw e => Throw e
      | Ok ciphertext => decryptOTP key ciphertext
      end
  end.

(** [decrypted.split(':')[1]] *)
Definition purchaser_of (decrypted : string) : jsval :=
  index_string (split_on ":"%char decrypted) 1.

Definition fraud_line (guid purchaser : jsval) : string :=
  nl ++ "[FRAUD DETECTED] Coin " ++ display guid
     ++ " was double-spent by: " ++ display purchaser.

Definition merchant_line (guid : jsval) : string :=
  nl ++ "[MERCHANT FRAUD] Attempted to double-deposit coin " ++ display guid.

(** The body of the [try] at lines 96-107; [Some p] stands for
    [return p], [None] for falling out of the block. *)
Definition try_identify (guid v1 v2 : jsval) : M (option jsval) :=
  decrypted <- lift (decrypt_values v1 v2) ;;
  if prefix IDENT_STR decrypted then
    let purchaser := purchaser_of decrypted in
    console_log (fraud_line guid purchaser) ;;;
    ret (Some purchaser)
  else ret None.

(** One turn of the loop at lines 94-112. *)
Definition scan_position (guid : jsval) (ris1 ris2 : list RisElement)
    (i : nat) : M (option jsval) :=
  v1 <- lift (value_at ris1 i) ;;
  v2 <- lift (value_at ris2 i) ;;
  if strict_neq v1 v2 then
    try_catch (try_identify guid v1 v2)
      (fun e =>
         console_error ("Decryption failed: " ++ err_message e) ;;;
         ret None)
  else ret None.

(** The loop [for (; i < COIN_RIS_LENGTH; i++)] with [n] turns left;
    [Some p] when the body returned [p]. *)
Fixpoint scan (guid : jsval) (ris1 ris2 : list RisElement)
    (n i : nat) : M (option jsval) :=
  match n with
  | O => ret None
  | S n' =>
      r <- scan_position guid ris1 ris2 i ;;
      match r with
      | Some p => ret (Some p)
      | None => scan guid ris1 ris2 n' (S i)
      end
  end.

(** Lines 90-92 throw unless both arguments pass [Array.isArray]. *)
Definition determineCheater (guid : jsval) (ris1 ris2 : js_arg) : M jsval :=
  match ris1, ris2 with
  | JArray a1, JArray a2 =>
      r <- scan guid a1 a2 COIN_RIS_LENGTH 0 ;;
      match r with
      | Some p => ret p
      | None =>
          console_log (merchant_line guid) ;;;
          ret (JString "merchant")
      end
  | _, _ => throw (mkError Error "Invalid RIS data format")
  end.

(** *** signCoin (lines 27-42) *)

Definition signCoin (blindedCoinHash : jsval) : M string :=
  if negb (truthy blindedCoinHash) then
    throw (mkError Error "Blinded hash is required")
  else
    try_catch
      (s <- lift (toString_method blindedCoinHash) ;;
       blindedBigInt <- lift (new_BigInteger s) ;;
       signed <- lift (blindSignatures_sign blindedBigInt BANK_KEY) ;;
       ret (BigInteger_toString signed))
      (fun e =>
         console_error ("Signing failed: " ++ err_message e) ;;;
         throw (mkError Error "Coin signing failed")).

(** *** main (lines 119-145) *)

(** The [try] block of [main]. *)
Definition main_body : M unit :=
  console_log (nl ++ "=== Creating New Coin ===") ;;;
  coin <- lift (new_Coin "alice" 20 (BigInteger_toString N)
                  (BigInteger_toString E)) ;;
  console_log (nl ++ "=== Signing Coin ===") ;;;
  sig <- signCoin (coin_blinded coin) ;;
  coin <- lift (coin_unblind (set_signature coin (JString sig))) ;;
  console_log "Coin signed successfully" ;;;
  console_log (nl ++ "=== Merchant 1 Accepting Coin ===") ;;;
  ris1 <- acceptCoin coin ;;
  console_log "Merchant 1 accepted coin" ;;;
  console_log (nl ++ "=== Merchant 2 Accepting Coin ===") ;;;
  ris2 <- acceptCoin coin ;;
  console_log "Merchant 2 accepted coin" ;;;
  console_log (nl ++ "=== Fraud Detection ===") ;;;
  determineCheater (guid coin) (JArray ris1) (JArray ris2) ;;;
  determineCheater (guid coin) (JArray ris1) (JArray ris1) ;;;
  ret tt.

(** [main]: what the [try] throws is logged by the [catch], which ends
    the process with code 1. *)
Definition main (w : world) : completion * world :=
  match main_body w with
  | (Ok _, w') => (Returned, w')
  | (Throw error, w') =>
      (ProcessExit 1,
       record w' (ConsoleError (nl ++ "[SYSTEM ERROR] " ++ err_message error)))
  end.

(** *** Vocabulary of the statements *)

(** Position [i] identifies a spender: both transcripts have an element
    there, the two values differ, and their one-time-pad combination
    decodes to a string that starts with [IDENT_STR]; the result is the
    decoded string. *)
Definition identifies (ris1 ris2 : list RisElement) (i : nat) : option string :=
  match nth_error ris1 i, nth_error ris2 i with
  | Some e1, Some e2 =>
      if strict_neq (value e1) (value e2) then
        match decrypt_values (value e1) (value e2) with
        | Ok decrypted =>
            if prefix IDENT_STR decrypted then Some decrypted else None
        | Throw _ => None
        end
      else None
  | _, _ => None
  end.

(** Decoding raises an error at position [i]. *)
Definition decode_fails (ris1 ris2 : list RisElement) (i : nat) : option js_error :=
  match nth_error ris1 i, nth_error ris2 i with
  | Some e1, Some e2 =>
      if strict_neq (value e1) (value e2) then
        match decrypt_values (value e1) (value e2) with
        | Ok _ => None
        | Throw e => Some e
        end
      else None
  | _, _ => None
  end.

(** No [':'] in the string. *)
Fixpoint colon_free (s : string) : bool :=
  match s with
  | EmptyString => true
  | String c s' => negb (Ascii.eqb c ":"%char) && colon_free s'
  end.

(** The call ends on this event. *)
Definition ends_with (w : world) (e : event) : Prop :=
  exists earlier, events w = (earlier ++ [e])%list.

(** The side [acceptCoin] challenges when [crypto.randomInt] is called
    for the k-th time. *)
Definition select_left (k : nat) : bool := (randomInt k =? 0)%Z.

(** [selectLeft ? leftHashes[i] : rightHashes[i]] *)
Definition expected_hash (leftHashes rightHashes : list jsval)
    (selectLeft : bool) (i : nat) : jsval :=
  if selectLeft then index_val leftHashes i else index_val rightHashes i.

(** The world after the challenge of position [i]: one draw, one call of
    [getRis]. *)
Definition after_challenge (w : world) (i : nat) : world :=
  record
    (mkWorld (S (rng_calls w))
       (events w ++ [RandomInt (randomInt (rng_calls w))]))
    (GetRis (select_left (rng_calls w)) i).

(** The world after the challenges of positions [i], ..., [i + n - 1]. *)
Fixpoint challenges (w : world) (i n : nat) : world :=
  match n with
  | O => w
  | S n' => challenges (after_challenge w i) (S i) n'
  end.

(** With the k-th draw, position [i] reveals a share whose hash is the
    commitment of the chosen side. *)
Definition challenge_passes (coin : Coin) (leftHashes rightHashes : list jsval)
    (k i : nat) : bool :=
  match getRis coin (select_left k) i with
  | Ok element =>
      match utils_hash element with
      | Ok h =>
          strict_eq (JString h)
            (expected_hash leftHashes rightHashes (select_left k) i)
      | Throw _ => false
      end
  | Throw _ => false
  end.

(** With the k-th draw, position [i] reveals a share whose hash is not the
    commitment of the chosen side. *)
Definition hash_mismatch (coin : Coin) (leftHashes rightHashes : list jsval)
    (k i : nat) : bool :=
  match getRis coin (select_left k) i with
  | Ok element =>
      match utils_hash element with
      | Ok h =>
          strict_neq (JString h)
            (expected_hash leftHashes rightHashes (select_left k) i)
      | Throw _ => false
      end
  | Throw _ => false
  end.

(** A disclosure challenge: a draw of the side or a call of [getRis]. *)
Definition is_challenge (e : event) : bool :=
  match e with
  | RandomInt _ | GetRis _ _ => true
  | ConsoleLog _ | ConsoleError _ => false
  end.

(** What the [try] block of [verifySignature] evaluates, in order. *)
Definition verification (coin : Coin) : outcome bool :=
  match toString_method (signature coin) with
  | Throw e => Throw e
  | Ok sig =>
      match new_BigInteger sig with
      | Throw e => Throw e
      | Ok unblinded =>
          match coin_toString coin with
          | Throw e => Throw e
          | Ok message => blindSignatures_verify unblinded N E message
          end
      end
  end.

(** Modelled from the spec: the contract of the shares of a coin built for
    [purchaser] (sections 3 and 4.1).  [getRis] reveals a share for either
    side of every position, and the two shares of a position, combined by
    the one-time pad in either order, decode to
    [IDENT_STR + ":" + purchaser]. *)
Definition reveals_identity (coin : Coin) (purchaser : string) : Prop :=
  forall i, i < COIN_RIS_LENGTH ->
    exists l r,
      getRis coin true i = Ok l /\
      getRis coin false i = Ok r /\
      decrypt_values l r = Ok (identity_string IDENT_STR purchaser) /\
      decrypt_values r l = Ok (identity_string IDENT_STR purchaser).

(** A line of [console.error]. *)
Definition is_console_error (e : event) : bool :=
  match e with
  | ConsoleError _ => true
  | _ => false
  end.

(** What the challenge of position [i] lets out when [getRis] or
    [utils.hash] throws on the k-th draw. *)
Definition challenge_raises (coin : Coin) (k i : nat) : option js_error :=
  match getRis coin (select_left k) i with
  | Throw e => Some e
  | Ok element =>
      match utils_hash element with
      | Throw e => Some e
      | Ok _ => None
      end
  end.

(** The events of [n] challenges from the k-th draw on, positions [0] to
    [n - 1]. *)
Definition challenge_events (k n : nat) : list event :=
  flat_map
    (fun i => [RandomInt (randomInt (k + i)); GetRis (select_left (k + i)) i])
    (seq 0 n).

(** The two shares of every position are different objects. *)
Definition distinct_shares (coin : Coin) : Prop :=
  forall i l r, i < COIN_RIS_LENGTH ->
    getRis coin true i = Ok l -> getRis coin false i = Ok r ->
    strict_neq l r = true.

(** From [w] to [w'] no side was drawn and [getRis] was not called. *)
Definition no_new_challenge (w w' : world) : Prop :=
  rng_calls w' = rng_calls w /\
  exists tail, events w' = (events w ++ tail)%list /\
               existsb is_challenge tail = false.

(** The lines [console.error] writes for the decoding errors of the
    positions [i], ..., [i + n - 1]: one for each position where decoding
    fails, in the order of the positions. *)
Definition decode_error_lines (ris1 ris2 : list RisElement) (i n : nat)
  : list event :=
  flat_map
    (fun j =>
       match decode_fails ris1 ris2 j with
       | Some e => [ConsoleError ("Decryption failed: " ++ err_message e)]
       | None => []
       end)
    (seq i n).

(** *** The scanning loop *)

Lemma scan_position_run (guid : jsval) (ris1 ris2 : list RisElement)
    (i : nat) (w : world) :
  scan_position guid ris1 ris2 i w =
  match value_at ris1 i, value_at ris2 i with
  | Throw e, _ => (Throw e, w)
  | Ok _, Throw e => (Throw e, w)
  | Ok v1, Ok v2 =>
      if strict_neq v1 v2 then
        match decrypt_values v1 v2 with
        | Ok decrypted =>
            if prefix IDENT_STR decrypted then
              (Ok (Some (purchaser_of decrypted)),
               record w (ConsoleLog (fraud_line guid (purchaser_of decrypted))))
            else (Ok None, w)
        | Throw e =>
            (Ok None,
             record w (ConsoleError ("Decryption failed: " ++ err_message e)))
        end
      else (Ok None, w)
  end.
Proof.
  unfold scan_position, bind, lift, try_catch, try_identify, bind, lift.
  destruct (value_at ris1 i) as [v1|e1]; [|reflexivity].
  destruct (value_at ris2 i) as [v2|e2]; [|reflexivity].
  destruct (strict_neq v1 v2); [|reflexivity].
  destruct (decrypt_values v1 v2) as [d|e]; [|reflexivity].
  destruct (prefix IDENT_STR d); reflexivity.
Qed.

Lemma value_at_present (ris : list RisElement) (i : nat) :
  i < length ris -> exists r, nth_error ris i = Some r /\ value_at ris i = Ok (value r).
Proof.
  intros Hi. unfold value_at.
  destruct (nth_error ris i) as [r|] eqn:Hr.
  - exists r. split; reflexivity.
  - apply nth_error_None in Hr. lia.
Qed.

Lemma scan_position_found (guid : jsval) (ris1 ris2 : list RisElement)
    (i : nat) (d : string) (w : world) :
  identifies ris1 ris2 i = Some d ->
  scan_position guid ris1 ris2 i w =
  (Ok (Some (purchaser_of d)),
   record w (ConsoleLog (fraud_line guid (purchaser_of d)))).
Proof.
  intros H. rewrite scan_position_run. unfold identifies, value_at in *.
  destruct (nth_error ris1 i) as [e1|]; [|discriminate].
  destruct (nth_error ris2 i) as [e2|]; [|discriminate].
  destruct (strict_neq (value e1) (value e2)); [|discriminate].
  destruct (decrypt_values (value e1) (value e2)) as [d'|e]; [|discriminate].
  destruct (prefix IDENT_STR d'); [|discriminate].
  injection H as ->. reflexivity.
Qed.

Lemma scan_position_silent (guid : jsval) (ris1 ris2 : list RisElement)
    (i : nat) (w : world) :
  i < length ris1 -> i < length ris2 ->
  identifies ris1 ris2 i = None ->
  exists w', scan_position guid ris1 ris2 i w = (Ok None, w').
Proof.
  intros H1 H2 H. rewrite scan_position_run.
  destruct (value_at_present ris1 i H1) as (e1 & Hn1 & ->).
  destruct (value_at_present ris2 i H2) as (e2 & Hn2 & ->).
  unfold identifies in H. rewrite Hn1, Hn2 in H.
  destruct (strict_neq (value e1) (value e2)); [|eauto].
  destruct (decrypt_values (value e1) (value e2)) as [d'|e]; [|eauto].
  destruct (prefix IDENT_STR d'); [discriminate|eauto].
Qed.

Lemma scan_silent (guid : jsval) (ris1 ris2 : list RisElement) (n : nat) :
  forall (i : nat) (w : world),
    i + n <= length ris1 -> i + n <= length ris2 ->
    (forall j, i <= j < i + n -> identifies ris1 ris2 j = None) ->
    exists w', scan guid ris1 ris2 n i w = (Ok None, w').
Proof.
  induction n as [|n IH]; intros i w H1 H2 Hs.
  - exists w. reflexivity.
  - destruct (scan_position_silent guid ris1 ris2 i w) as [w1 Hw1];
      [lia | lia | apply Hs; lia |].
    destruct (IH (S i) w1) as [w2 Hw2]; [lia | lia | intros; apply Hs; lia |].
    exists w2. cbn [scan]. unfold bind. rewrite Hw1. exact Hw2.
Qed.

Lemma scan_found_any (guid : jsval) (ris1 ris2 : list RisElement) (d : string)
    (k : nat) :
  forall (i : nat) (w : world),
    i + k < length ris1 -> i + k < length ris2 ->
    (forall j, i <= j < i + k -> identifies ris1 ris2 j = None) ->
    identifies ris1 ris2 (i + k) = Some d ->
    exists w',
      ends_with w' (ConsoleLog (fraud_line guid (purchaser_of d))) /\
      forall n, k < n ->
        scan guid ris1 ris2 n i w = (Ok (Some (purchaser_of d)), w').
Proof.
  induction k as [|k IH]; intros i w H1 H2 Hs Hd.
  - rewrite Nat.add_0_r in Hd.
    exists (record w (ConsoleLog (fraud_line guid (purchaser_of d)))).
    split; [exists (events w); reflexivity|].
    intros [|n] Hn; [lia|]. cbn [scan]. unfold bind.
    rewrite (scan_position_found _ _ _ _ _ _ Hd). reflexivity.
  - destruct (scan_position_silent guid ris1 ris2 i w) as [w1 Hw1];
      [lia | lia | apply Hs; lia |].
    destruct (IH (S i) w1) as (w2 & He & Hw2);
      [lia | lia | intros; apply Hs; lia
      | replace (S i + k) with (i + S k) by lia; exact Hd |].
    exists w2. split; [exact He|].
    intros [|n] Hn; [lia|]. cbn [scan]. unfold bind. rewrite Hw1.
    apply Hw2. lia.
Qed.

(** The loop reads the transcripts at the positions it visits only. *)
Lemma scan_agree (guid : jsval) (ris1 ris2 ris1' ris2' : list RisElement)
    (n : nat) :
  forall (i : nat) (w : world),
    (forall j, i <= j < i + n ->
       nth_error ris1 j = nth_error ris1' j /\
       nth_error ris2 j = nth_error ris2' j) ->
    scan guid ris1 ris2 n i w = scan guid ris1' ris2' n i w.
Proof.
  induction n as [|n IH]; intros i w H; [reflexivity|].
  cbn [scan]. unfold bind. rewrite !scan_position_run. unfold value_at.
  destruct (H i) as [-> ->]; [lia|].
  destruct (nth_error ris1' i) as [e1|]; [|reflexivity].
  destruct (nth_error ris2' i) as [e2|]; [|reflexivity].
  assert (Hn : forall w1, scan guid ris1 ris2 n (S i) w1
                          = scan guid ris1' ris2' n (S i) w1).
  { intros w1. apply IH. intros j Hj. apply H. lia. }
  destruct (strict_neq (value e1) (value e2)); [|apply Hn].
  destruct (decrypt_values (value e1) (value e2)) as [d|e]; [|apply Hn].
  destruct (prefix IDENT_STR d); [reflexivity|apply Hn].
Qed.


Lemma identifies_present (ris1 ris2 : list RisElement) (i : nat) (d : string) :
  identifies ris1 ris2 i = Some d -> i < length ris1 /\ i < length ris2.
Proof.
  unfold identifies. intros H.
  destruct (nth_error ris1 i) eqn:H1; [|discriminate].
  destruct (nth_error ris2 i) eqn:H2; [|discriminate].
  split; apply nth_error_Some; congruence.
Qed.

(** Only a missing element makes the loop throw. *)
Lemma scan_throw (guid : jsval) (ris1 ris2 : list RisElement) (n : nat) :
  forall (i : nat) (w : world) (e : js_error) (w' : world),
    scan guid ris1 ris2 n i w = (Throw e, w') ->
    e = mkError TypeError "Cannot read properties of undefined (reading 'value')".
Proof.
  induction n as [|n IH]; intros i w e w' H; [discriminate|].
  cbn [scan] in H. unfold bind in H. rewrite scan_position_run in H.
  unfold value_at in H.
  destruct (nth_error ris1 i) as [e1|]; [|congruence].
  destruct (nth_error ris2 i) as [e2|]; [|congruence].
  destruct (strict_neq (value e1) (value e2)); [|eapply IH; eassumption].
  destruct (decrypt_values (value e1) (value e2)) as [d|e0];
    [|eapply IH; eassumption].
  destruct (prefix IDENT_STR d); [discriminate|eapply IH; eassumption].
Qed.

(** *** Strings *)

Lemma split_on_nonempty (sep : ascii) (s : string) : split_on sep s <> [].
Proof.
  destruct s as [|c s]; cbn; [discriminate|].
  destruct (Ascii.eqb c sep); [discriminate|].
  destruct (split_on sep s); discriminate.
Qed.

Lemma split_on_colon_free (s : string) :
  colon_free s = true -> split_on ":"%char s = [s].
Proof.
  induction s as [|c s IH]; cbn; [reflexivity|].
  intros H. apply andb_true_iff in H as [Hc Hs].
  apply negb_true_iff in Hc. rewrite Hc, (IH Hs). reflexivity.
Qed.

Lemma split_on_delimited (a b : string) :
  colon_free a = true ->
  split_on ":"%char (a ++ ":" ++ b) = a :: split_on ":"%char b.
Proof.
  induction a as [|c a IH]; cbn; [reflexivity|].
  intros H. apply andb_true_iff in H as [Hc Ha].
  apply negb_true_iff in Hc. rewrite Hc.
  cbn in IH. rewrite (IH Ha). reflexivity.
Qed.

Lemma purchaser_of_delimited (ident purchaser : string) :
  colon_free ident = true -> colon_free purchaser = true ->
  purchaser_of (ident ++ ":" ++ purchaser) = JString purchaser.
Proof.
  intros Hi Hp. unfold purchaser_of.
  rewrite (split_on_delimited _ _ Hi), (split_on_colon_free _ Hp).
  reflexivity.
Qed.

Lemma prefix_append (a b : string) : prefix a (a ++ b) = true.
Proof.
  induction a as [|c a IH]; cbn; [destruct b; reflexivity|].
  destruct (ascii_dec c c); [exact IH|congruence].
Qed.

(** *** Strict equality *)

Lemma strict_neq_self (v : jsval) : strict_neq v v = true -> v = JNaN.
Proof.
  unfold strict_neq. destruct v; cbn; try discriminate; try reflexivity.
  - destruct b; discriminate.
  - rewrite Z.eqb_refl. discriminate.
  - rewrite String.eqb_refl. discriminate.
  - rewrite Nat.eqb_refl. discriminate.
Qed.

Lemma identifies_self (ris : list RisElement) (i : nat) :
  identifies ris ris i = None.
Proof.
  unfold identifies. destruct (nth_error ris i) as [e|]; [|reflexivity].
  destruct (strict_neq (value e) (value e)) eqn:H; [|reflexivity].
  apply strict_neq_self in H. rewrite H. reflexivity.
Qed.


(** *** Signature verification *)

Lemma verifySignature_run (coin : Coin) (w : world) :
  verifySignature coin w =
  match verification coin with
  | Ok b => (Ok b, w)
  | Throw e =>
      (Ok false, record w (ConsoleError ("Verification error: " ++ err_message e)))
  end.
Proof.
  unfold verifySignature, verification, try_catch, bind, lift.
  destruct (toString_method (signature coin)) as [sig|e]; [|reflexivity].
  destruct (new_BigInteger sig) as [u|e]; [|reflexivity].
  destruct (coin_toString coin) as [m|e]; [|reflexivity].
  destruct (blindSignatures_verify u N E m) as [b|e]; reflexivity.
Qed.

Lemma verifySignature_world (coin : Coin) (w : world) (b : bool) (w1 : world) :
  verifySignature coin w = (Ok b, w1) ->
  rng_calls w1 = rng_calls w /\
  exists tail, events w1 = (events w ++ tail)%list /\
               existsb is_challenge tail = false.
Proof.
  rewrite verifySignature_run.
  destruct (verification coin) as [b'|e]; intros H; injection H as <- <-.
  - split; [reflexivity|]. exists []. rewrite app_nil_r. split; reflexivity.
  - split; [reflexivity|]. eexists. split; reflexivity.
Qed.

(** *** The acceptance loop *)

Lemma accept_loop_run (coin : Coin) (lh rh : list jsval) (n i : nat)
    (acc : list RisElement) (w : world) :
  accept_loop coin lh rh (S n) i acc w =
  let sel := select_left (rng_calls w) in
  match getRis coin sel i with
  | Throw e => (Throw e, after_challenge w i)
  | Ok element =>
      match utils_hash element with
      | Throw e => (Throw e, after_challenge w i)
      | Ok h =>
          if strict_neq (JString h) (expected_hash lh rh sel i) then
            (Throw (tamper_error i), after_challenge w i)
          else
            accept_loop coin lh rh n (S i)
              (acc ++ [mkRis i sel element (expected_hash lh rh sel i)])
              (after_challenge w i)
      end
  end.
Proof.
  cbn [accept_loop]. unfold bind, draw, call_getRis, bind, emit, lift, throw.
  cbn. fold (select_left (rng_calls w)). unfold after_challenge, expected_hash.
  destruct (getRis coin (select_left (rng_calls w)) i) as [el|e]; [|reflexivity].
  destruct (utils_hash el) as [h|e]; [|reflexivity].
  destruct (strict_neq (JString h)
              (if select_left (rng_calls w) then index_val lh i
               else index_val rh i)); reflexivity.
Qed.

Lemma after_challenge_rng (w : world) (i : nat) :
  rng_calls (after_challenge w i) = S (rng_calls w).
Proof. reflexivity. Qed.

Lemma challenges_rng (n : nat) :
  forall (w : world) (i : nat),
    rng_calls (challenges w i n) = rng_calls w + n.
Proof.
  induction n as [|n IH]; intros w i; cbn [challenges]; [lia|].
  rewrite IH, after_challenge_rng. lia.
Qed.

Lemma challenges_snoc (n : nat) :
  forall (w : world) (i : nat),
    challenges w i (S n) = after_challenge (challenges w i n) (i + n).
Proof.
  induction n as [|n IH]; intros w i.
  - cbn [challenges]. rewrite Nat.add_0_r. reflexivity.
  - change (challenges w i (S (S n)))
      with (challenges (after_challenge w i) (S i) (S n)).
    rewrite IH. cbn [challenges].
    replace (S i + n) with (i + S n) by lia. reflexivity.
Qed.

(** Positions that pass are pushed, and the loop goes on behind them. *)
Lemma accept_loop_skip (coin : Coin) (lh rh : list jsval) (k : nat) :
  forall (n i : nat) (acc : list RisElement) (w : world),
    (forall j, j < k ->
       challenge_passes coin lh rh (rng_calls w + j) (i + j) = true) ->
    exists acc',
      accept_loop coin lh rh (k + n) i acc w =
      accept_loop coin lh rh n (i + k) acc' (challenges w i k).
Proof.
  induction k as [|k IH]; intros n i acc w Hp.
  - exists acc. rewrite Nat.add_0_r. reflexivity.
  - change (S k + n) with (S (k + n)). rewrite accept_loop_run. cbv zeta.
    pose proof (Hp 0 ltac:(lia)) as H0.
    rewrite !Nat.add_0_r in H0. unfold challenge_passes in H0.
    destruct (getRis coin (select_left (rng_calls w)) i) as [el|e];
      [|discriminate].
    destruct (utils_hash el) as [h|e]; [|discriminate].
    unfold strict_neq. rewrite H0. cbn [negb].
    edestruct (IH n (S i)) as [acc' Hacc'].
    2:{ exists acc'. rewrite Hacc'. cbn [challenges].
        replace (S i + k) with (i + S k) by lia. reflexivity. }
    intros j Hj. rewrite after_challenge_rng.
    replace (S (rng_calls w) + j) with (rng_calls w + S j) by lia.
    replace (S i + j) with (i + S j) by lia. apply Hp. lia.
Qed.

Lemma accept_loop_mismatch (coin : Coin) (lh rh : list jsval) (n i : nat)
    (acc : list RisElement) (w : world) :
  hash_mismatch coin lh rh (rng_calls w) i = true ->
  accept_loop coin lh rh (S n) i acc w =
  (Throw (tamper_error i), after_challenge w i).
Proof.
  intros H. rewrite accept_loop_run. cbv zeta. unfold hash_mismatch in H.
  destruct (getRis coin (select_left (rng_calls w)) i) as [el|e];
    [|discriminate].
  destruct (utils_hash el) as [h|e]; [|discriminate].
  rewrite H. reflexivity.
Qed.

(** What a completed loop has pushed. *)
Lemma accept_loop_ok (coin : Coin) (lh rh : list jsval) (n : nat) :
  forall (i : nat) (acc : list RisElement) (w : world)
         (T : list RisElement) (w' : world),
    accept_loop coin lh rh n i acc w = (Ok T, w') ->
    w' = challenges w i n /\
    exists pushed,
      T = (acc ++ pushed)%list /\ length pushed = n /\
      forall k, k < n ->
        exists r,
          nth_error pushed k = Some r /\
          position r = i + k /\
          isLeft r = select_left (rng_calls w + k) /\
          getRis coin (isLeft r) (i + k) = Ok (value r) /\
          hash r = expected_hash lh rh (isLeft r) (i + k) /\
          exists h, utils_hash (value r) = Ok h /\
                    strict_eq (JString h) (hash r) = true.
Proof.
  induction n as [|n IH]; intros i acc w T w' H.
  - injection H as <- <-. split; [reflexivity|].
    exists []. rewrite app_nil_r. repeat split. intros k Hk. lia.
  - rewrite accept_loop_run in H. cbv zeta in H.
    destruct (getRis coin (select_left (rng_calls w)) i) as [el|e] eqn:Hg;
      [|discriminate].
    destruct (utils_hash el) as [h|e] eqn:Hh; [|discriminate].
    destruct (strict_neq (JString h)
                (expected_hash lh rh (select_left (rng_calls w)) i)) eqn:Hc;
      [discriminate|].
    apply IH in H as (Hw & pushed & HT & Hlen & Hk).
    split; [exact Hw|].
    exists (mkRis i (select_left (rng_calls w)) el
              (expected_hash lh rh (select_left (rng_calls w)) i) :: pushed).
    split; [rewrite HT, <- app_assoc; reflexivity|].
    split; [cbn; lia|].
    intros [|k] Hlt.
    + eexists. split; [reflexivity|]. cbn [position isLeft value hash].
      rewrite !Nat.add_0_r. repeat split; try assumption.
      exists h. split; [assumption|].
      unfold strict_neq in Hc. apply negb_false_iff in Hc. exact Hc.
    + destruct (Hk k ltac:(lia)) as (r & Hr & Hp & Hl & Hgr & Hhr & Hex).
      exists r. split; [exact Hr|].
      rewrite after_challenge_rng in Hl.
      replace (i + S k) with (S i + k) by lia.
      replace (rng_calls w + S k) with (S (rng_calls w) + k) by lia.
      repeat split; assumption.
Qed.


(** *** determineCheater *)

Lemma determineCheater_run (guid : jsval) (ris1 ris2 : list RisElement)
    (w : world) :
  determineCheater guid (JArray ris1) (JArray ris2) w =
  match scan guid ris1 ris2 COIN_RIS_LENGTH 0 w with
  | (Ok (Some p), w') => (Ok p, w')
  | (Ok None, w') =>
      (Ok (JString "merchant"), record w' (ConsoleLog (merchant_line guid)))
  | (Throw e, w') => (Throw e, w')
  end.
Proof.
  unfold determineCheater, bind.
  destruct (scan guid ris1 ris2 COIN_RIS_LENGTH 0 w) as [[[p|]|e] w'];
    reflexivity.
Qed.

Lemma determineCheater_silent (guid : jsval) (ris1 ris2 : list RisElement)
    (w : world) :
  COIN_RIS_LENGTH <= length ris1 -> COIN_RIS_LENGTH <= length ris2 ->
  (forall i, i < COIN_RIS_LENGTH -> identifies ris1 ris2 i = None) ->
  exists w',
    determineCheater guid (JArray ris1) (JArray ris2) w
    = (Ok (JString "merchant"), w') /\
    ends_with w' (ConsoleLog (merchant_line guid)).
Proof.
  intros H1 H2 Hs. rewrite determineCheater_run.
  destruct (scan_silent guid ris1 ris2 COIN_RIS_LENGTH 0 w) as [w1 Hw1];
    [lia | lia | intros; apply Hs; lia |].
  rewrite Hw1. eexists. split; [reflexivity|].
  exists (events w1). reflexivity.
Qed.

Lemma determineCheater_found (guid : jsval) (ris1 ris2 : list RisElement)
    (i : nat) (d : string) (w : world) :
  i < COIN_RIS_LENGTH ->
  (forall j, j < i -> identifies ris1 ris2 j = None) ->
  identifies ris1 ris2 i = Some d ->
  exists w',
    determineCheater guid (JArray ris1) (JArray ris2) w
    = (Ok (purchaser_of d), w') /\
    ends_with w' (ConsoleLog (fraud_line guid (purchaser_of d))) /\
    scan guid ris1 ris2 (S i) 0 w = (Ok (Some (purchaser_of d)), w').
Proof.
  intros Hi Hs Hd. destruct (identifies_present _ _ _ _ Hd) as [H1 H2].
  destruct (scan_found_any guid ris1 ris2 d i 0 w) as (w' & He & Hw');
    [exact H1 | exact H2 | intros; apply Hs; lia | exact Hd |].
  exists w'. rewrite determineCheater_run, (Hw' COIN_RIS_LENGTH Hi).
  repeat split; [exact He | apply Hw'; lia].
Qed.

(** Either some position is the first to identify a spender, or none
    does. *)
Lemma first_identified (ris1 ris2 : list RisElement) (n : nat) :
  (forall j, j < n -> identifies ris1 ris2 j = None) \/
  exists i d, i < n /\ identifies ris1 ris2 i = Some d /\
              forall j, j < i -> identifies ris1 ris2 j = None.
Proof.
  induction n as [|n [IH|(i & d & Hi & Hd & Hs)]].
  - left. intros j Hj. lia.
  - destruct (identifies ris1 ris2 n) as [d|] eqn:Hn.
    + right. exists n, d. repeat split; [lia | exact Hn | exact IH].
    + left. intros j Hj. destruct (Nat.eq_dec j n) as [->|]; [exact Hn|].
      apply IH. lia.
  - right. exists i, d. repeat split; [lia | exact Hd | exact Hs].
Qed.


(** C2: passing the same transcript of length [COIN_RIS_LENGTH] twice
    yields ["merchant"]; and so do any two transcripts of that length in
    which no position holds differing values whose one-time-pad
    combination decodes to a string with the [IDENT_STR] prefix. *)
Theorem determineCheater_merchant (guid : jsval) (w : world) :
  (forall T,
     length T = COIN_RIS_LENGTH ->
     exists w',
       determineCheater guid (JArray T) (JArray T) w
       = (Ok (JString "merchant"), w') /\
       ends_with w' (ConsoleLog (merchant_line guid))) /\
  (forall ris1 ris2,
     length ris1 = COIN_RIS_LENGTH -> length ris2 = COIN_RIS_LENGTH ->
     (forall i, i < COIN_RIS_LENGTH -> identifies ris1 ris2 i = None) ->
     exists w',
       determineCheater guid (JArray ris1) (JArray ris2) w
       = (Ok (JString "merchant"), w') /\
       ends_with w' (ConsoleLog (merchant_line guid))).
Proof.
  split.
  - intros T HT. apply determineCheater_silent; try lia.
    intros i _. apply identifies_self.
  - intros ris1 ris2 H1 H2 Hs. apply determineCheater_silent; try lia.
    exact Hs.
Qed.

(** C6, as the code has it: [determineCheater] fails with the error
    ['Invalid RIS data format'] when an argument is not an array, and for
    two arrays it never raises this error; the length of an array is not
    checked: of transcripts longer than [COIN_RIS_LENGTH] the first
    [COIN_RIS_LENGTH] elements are scanned and the others ignored. *)
Theorem determineCheater_format_check (guid : jsval) (w : world) :
  (forall v ris2,
     determineCheater guid (NotArray v) ris2 w
     = (Throw (mkError Error "Invalid RIS data format"), w)) /\
  (forall ris1 v,
     determineCheater guid ris1 (NotArray v) w
     = (Throw (mkError Error "Invalid RIS data format"), w)) /\
  (forall ris1 ris2 w',
     determineCheater guid (JArray ris1) (JArray ris2) w
     <> (Throw (mkError Error "Invalid RIS data format"), w')) /\
  (forall ris1 ris2 more1 more2,
     length ris1 = COIN_RIS_LENGTH -> length ris2 = COIN_RIS_LENGTH ->
     determineCheater guid (JArray (ris1 ++ more1)) (JArray (ris2 ++ more2)) w
     = determineCheater guid (JArray ris1) (JArray ris2) w).
Proof.
  split; [|split; [|split]].
  - intros v ris2. reflexivity.
  - intros [v1|l1] v; reflexivity.
  - intros ris1 ris2 w' H. rewrite determineCheater_run in H.
    destruct (scan guid ris1 ris2 COIN_RIS_LENGTH 0 w) as [[[p|]|e] w1] eqn:Hs;
      try discriminate.
    apply scan_throw in Hs. subst e. discriminate.
  - intros ris1 ris2 more1 more2 H1 H2. rewrite !determineCheater_run.
    rewrite (scan_agree guid (ris1 ++ more1) (ris2 ++ more2) ris1 ris2);
      [reflexivity|].
    intros j Hj. split; apply nth_error_app1; lia.
Qed.

(** C8: a decoding error at a position is caught there: the loop logs it
    and goes on with the next position; whatever the decoder does, the
    call on two transcripts that have their [COIN_RIS_LENGTH] elements
    returns a value, and no exception of the decoder ever leaves the
    function (the only exception it lets out is the [TypeError] of a
    missing element). *)
Theorem determineCheater_recovers_decode_errors
    (guid : jsval) (ris1 ris2 : list RisElement) :
  (forall n i e w,
     decode_fails ris1 ris2 i = Some e ->
     scan guid ris1 ris2 (S n) i w
     = scan guid ris1 ris2 n (S i)
         (record w (ConsoleError ("Decryption failed: " ++ err_message e)))) /\
  (forall w,
     COIN_RIS_LENGTH <= length ris1 -> COIN_RIS_LENGTH <= length ris2 ->
     exists v w',
       determineCheater guid (JArray ris1) (JArray ris2) w = (Ok v, w')) /\
  (forall w e w',
     determineCheater guid (JArray ris1) (JArray ris2) w = (Throw e, w') ->
     (length ris1 < COIN_RIS_LENGTH \/ length ris2 < COIN_RIS_LENGTH) /\
     e = mkError TypeError
           "Cannot read properties of undefined (reading 'value')").
Proof.
  assert (Hret : forall w,
             COIN_RIS_LENGTH <= length ris1 -> COIN_RIS_LENGTH <= length ris2 ->
             exists v w',
               determineCheater guid (JArray ris1) (JArray ris2) w = (Ok v, w')).
  { intros w H1 H2.
    destruct (first_identified ris1 ris2 COIN_RIS_LENGTH)
      as [Hs|(i & d & Hi & Hd & Hs)].
    - destruct (determineCheater_silent guid ris1 ris2 w H1 H2 Hs)
        as (w' & Hw' & _). eauto.
    - destruct (determineCheater_found guid ris1 ris2 i d w Hi Hs Hd)
        as (w' & Hw' & _). eauto. }
  split; [|split; [exact Hret|]].
  - intros n i e w H. cbn [scan]. unfold bind. rewrite scan_position_run.
    unfold decode_fails, value_at in *.
    destruct (nth_error ris1 i) as [e1|]; [|discriminate].
    destruct (nth_error ris2 i) as [e2|]; [|discriminate].
    destruct (strict_neq (value e1) (value e2)); [|discriminate].
    destruct (decrypt_values (value e1) (value e2)) as [d|e0]; [discriminate|].
    injection H as ->. reflexivity.
  - intros w e w' H. split.
    + destruct (Nat.le_gt_cases COIN_RIS_LENGTH (length ris1)) as [H1|H1];
        [|left; exact H1].
      destruct (Nat.le_gt_cases COIN_RIS_LENGTH (length ris2)) as [H2|H2];
        [|right; exact H2].
      destruct (Hret w H1 H2) as (v & w1 & Hv). congruence.
    + rewrite determineCheater_run in H.
      destruct (scan guid ris1 ris2 COIN_RIS_LENGTH 0 w) as [[[p|]|e0] w1] eqn:Hs;
        try discriminate.
      injection H as <- <-. eapply scan_throw. exact Hs.
Qed.


(** *** acceptCoin *)

Lemma acceptCoin_run (coin : Coin) (w : world) :
  acceptCoin coin w =
  match verifySignature coin w with
  | (Throw e, w1) => (Throw e, w1)
  | (Ok false, w1) =>
      (Throw (mkError Error
                "Invalid coin signature: Potential forgery detected"), w1)
  | (Ok true, w1) =>
      match parseCoin with
      | None => (Throw (mkError ReferenceError "parseCoin is not defined"), w1)
      | Some parse =>
          match coin_toString coin with
          | Throw e => (Throw e, w1)
          | Ok s =>
              match parse s with
              | Throw e => (Throw e, w1)
              | Ok hashes =>
                  accept_loop coin (fst hashes) (snd hashes)
                    COIN_RIS_LENGTH 0 [] w1
              end
          end
      end
  end.
Proof.
  unfold acceptCoin, bind.
  destruct (verifySignature coin w) as [[[|]|e] w1]; cbn [negb];
    try reflexivity.
  destruct parseCoin as [parse|]; [|reflexivity].
  unfold lift. destruct (coin_toString coin) as [s|e]; [|reflexivity].
  destruct (parse s) as [hashes|e]; reflexivity.
Qed.

Lemma verifySignature_returns (coin : Coin) (w : world) :
  exists b w1, verifySignature coin w = (Ok b, w1).
Proof.
  rewrite verifySignature_run. destruct (verification coin); eauto.
Qed.

Lemma after_challenge_events (w : world) (i : nat) :
  exists rest, events (after_challenge w i) = (events w ++ rest)%list.
Proof.
  eexists. unfold after_challenge, record. cbn [events].
  rewrite <- app_assoc. reflexivity.
Qed.

(** The loop only adds to the events. *)
Lemma accept_loop_events (coin : Coin) (lh rh : list jsval) (n : nat) :
  forall (i : nat) (acc : list RisElement) (w : world),
    exists rest,
      events (snd (accept_loop coin lh rh n i acc w)) = (events w ++ rest)%list.
Proof.
  induction n as [|n IH]; intros i acc w.
  - exists []. rewrite app_nil_r. reflexivity.
  - rewrite accept_loop_run. cbv zeta.
    destruct (after_challenge_events w i) as [r1 Hr1].
    destruct (getRis coin (select_left (rng_calls w)) i) as [el|e];
      [|exists r1; exact Hr1].
    destruct (utils_hash el) as [h|e]; [|exists r1; exact Hr1].
    destruct (strict_neq _ _); [exists r1; exact Hr1|].
    destruct (IH (S i)
                (acc ++ [mkRis i (select_left (rng_calls w)) el
                           (expected_hash lh rh (select_left (rng_calls w)) i)])%list
                (after_challenge w i)) as [r2 Hr2].
    exists (r1 ++ r2)%list. rewrite Hr2, Hr1, app_assoc. reflexivity.
Qed.

(** What a successful acceptance went through. *)
Lemma acceptCoin_ok (coin : Coin) (w : world) (T : list RisElement)
    (w' : world) :
  acceptCoin coin w = (Ok T, w') ->
  exists parse s lh rh,
    parseCoin = Some parse /\ coin_toString coin = Ok s /\
    parse s = Ok (lh, rh) /\
    length T = COIN_RIS_LENGTH /\
    forall i, i < COIN_RIS_LENGTH ->
      exists r,
        nth_error T i = Some r /\
        position r = i /\
        isLeft r = select_left (rng_calls w + i) /\
        getRis coin (isLeft r) i = Ok (value r) /\
        hash r = expected_hash lh rh (isLeft r) i /\
        exists h, utils_hash (value r) = Ok h /\
                  strict_eq (JString h) (hash r) = true.
Proof.
  rewrite acceptCoin_run.
  destruct (verifySignature coin w) as [[[|]|e] w1] eqn:Hv; try discriminate.
  destruct parseCoin as [parse|]; [|discriminate].
  destruct (coin_toString coin) as [s|e]; [|discriminate].
  destruct (parse s) as [[lh rh]|e] eqn:Hp; [|discriminate].
  cbn [fst snd]. intros H.
  apply accept_loop_ok in H as (_ & pushed & -> & Hlen & Hk).
  apply verifySignature_world in Hv as [Hrng _].
  exists parse, s, lh, rh.
  split; [reflexivity|]. split; [reflexivity|]. split; [exact Hp|].
  split; [exact Hlen|].
  intros i Hi. destruct (Hk i Hi) as (r & Hr & Hrest).
  exists r. rewrite <- Hrng. split; [exact Hr|exact Hrest].
Qed.

(** C3: when signature verification fails, [acceptCoin] throws the
    invalid-signature error and no disclosure challenge has been issued: no
    side was drawn and [getRis] was not called.  In every run the
    verification comes first: what [acceptCoin] does is what
    [verifySignature] does, which challenges nothing, followed by the
    rest. *)
Theorem acceptCoin_invalid_signature (coin : Coin) (w : world) :
  (forall w1,
     verifySignature coin w = (Ok false, w1) ->
     acceptCoin coin w
     = (Throw (mkError Error
                 "Invalid coin signature: Potential forgery detected"), w1) /\
     rng_calls w1 = rng_calls w /\
     exists tail, events w1 = (events w ++ tail)%list /\
                  existsb is_challenge tail = false) /\
  (exists b w1 tail rest,
     verifySignature coin w = (Ok b, w1) /\
     events w1 = (events w ++ tail)%list /\
     existsb is_challenge tail = false /\
     events (snd (acceptCoin coin w)) = (events w1 ++ rest)%list).
Proof.
  split.
  - intros w1 Hv. rewrite acceptCoin_run, Hv.
    split; [reflexivity|]. eapply verifySignature_world. exact Hv.
  - destruct (verifySignature_returns coin w) as (b & w1 & Hv).
    destruct (verifySignature_world coin w b w1 Hv) as (_ & tail & Ht & Hc).
    exists b, w1, tail. rewrite acceptCoin_run, Hv.
    assert (Hnil : exists rest : list event, events w1 = (events w1 ++ rest)%list)
      by (exists []; rewrite app_nil_r; reflexivity).
    destruct b.
    + destruct parseCoin as [parse|];
        [|destruct Hnil as [rest Hr]; exists rest; auto].
      destruct (coin_toString coin) as [s|e];
        [|destruct Hnil as [rest Hr]; exists rest; auto].
      destruct (parse s) as [hashes|e];
        [|destruct Hnil as [rest Hr]; exists rest; auto].
      destruct (accept_loop_events coin (fst hashes) (snd hashes)
                  COIN_RIS_LENGTH 0 [] w1) as [rest Hr].
      exists rest. auto.
    + destruct Hnil as [rest Hr]. exists rest. auto.
Qed.

(** C4: when the challenges of the positions before [i] pass and the hash
    of the share revealed at position [i] is not the commitment of the
    chosen side, [acceptCoin] throws the error that names position [i],
    right after the challenge of position [i]: no later position is
    challenged, and no transcript comes back. *)
Theorem acceptCoin_tamper_aborts (coin : Coin)
    (parse : string -> outcome (list jsval * list jsval)) (s : string)
    (leftHashes rightHashes : list jsval) (w w1 : world) (i : nat) :
  parseCoin = Some parse ->
  verifySignature coin w = (Ok true, w1) ->
  coin_toString coin = Ok s ->
  parse s = Ok (leftHashes, rightHashes) ->
  i < COIN_RIS_LENGTH ->
  (forall j, j < i ->
     challenge_passes coin leftHashes rightHashes (rng_calls w1 + j) j = true) ->
  hash_mismatch coin leftHashes rightHashes (rng_calls w1 + i) i = true ->
  acceptCoin coin w
  = (Throw (mkError Error
              ("RIS validation failed at position " ++ string_of_nat i)),
     challenges w1 0 (S i)).
Proof.
  intros Hp Hv Hs Hparse Hi Hpass Hbad.
  rewrite acceptCoin_run, Hv, Hp, Hs, Hparse. cbn [fst snd].
  replace COIN_RIS_LENGTH with (i + S (COIN_RIS_LENGTH - S i)) by lia.
  destruct (accept_loop_skip coin leftHashes rightHashes i
              (S (COIN_RIS_LENGTH - S i)) 0 [] w1) as [acc' ->].
  { intros j Hj. apply Hpass. exact Hj. }
  rewrite accept_loop_mismatch.
  - rewrite challenges_snoc. reflexivity.
  - rewrite challenges_rng. exact Hbad.
Qed.

(** C5: [parseCoin] is bound neither in [acceptCoin] nor at the top level
    of [driver.js]; the global scope not binding it either, on a coin whose
    signature verifies [acceptCoin] throws a [ReferenceError] right after
    the verification, and no call of [acceptCoin] returns a transcript. *)
Theorem acceptCoin_parseCoin_undefined (coin : Coin) (w : world) :
  parseCoin = None ->
  bound_in_acceptCoin "parseCoin" = false /\
  (forall w1,
     verifySignature coin w = (Ok true, w1) ->
     acceptCoin coin w
     = (Throw (mkError ReferenceError "parseCoin is not defined"), w1)) /\
  (forall T w', acceptCoin coin w <> (Ok T, w')).
Proof.
  intros Hp. split; [reflexivity|]. split.
  - intros w1 Hv. rewrite acceptCoin_run, Hv, Hp. reflexivity.
  - intros T w' H. apply acceptCoin_ok in H as (parse & _ & _ & _ & H & _).
    congruence.
Qed.

(** C7: a transcript returned by [acceptCoin] has exactly
    [COIN_RIS_LENGTH] elements; the element of index [i] records position
    [i], the side drawn for it, the share [getRis] revealed for that side
    and the commitment of that side, and the hash of the share is that
    commitment. *)
Theorem acceptCoin_transcript (coin : Coin) (w : world)
    (T : list RisElement) (w' : world) :
  acceptCoin coin w = (Ok T, w') ->
  length T = COIN_RIS_LENGTH /\
  exists parse s leftHashes rightHashes,
    parseCoin = Some parse /\ coin_toString coin = Ok s /\
    parse s = Ok (leftHashes, rightHashes) /\
    forall i, i < COIN_RIS_LENGTH ->
      exists r,
        nth_error T i = Some r /\
        position r = i /\
        isLeft r = select_left (rng_calls w + i) /\
        getRis coin (isLeft r) i = Ok (value r) /\
        hash r = (if isLeft r then index_val leftHashes i
                  else index_val rightHashes i) /\
        exists h, utils_hash (value r) = Ok h /\
                  strict_eq (JString h) (hash r) = true.
Proof.
  intros H.
  apply acceptCoin_ok in H as (parse & s & lh & rh & Hp & Hs & Hparse & Hlen & Hk).
  split; [exact Hlen|]. exists parse, s, lh, rh. auto.
Qed.

(** C10: [verifySignature] never throws: any error raised while it
    verifies (an absent signature, for one) is logged and the result is
    [false]; and when nothing fails it returns what
    [blindSignatures.verify] says of the signature and of the message
    [coin.toString()], under the bank's key. *)
Theorem verifySignature_never_throws (coin : Coin) (w : world) :
  (exists b w', verifySignature coin w = (Ok b, w')) /\
  (forall e,
     verification coin = Throw e ->
     verifySignature coin w
     = (Ok false,
        record w (ConsoleError ("Verification error: " ++ err_message e)))) /\
  (signature coin = JUndefined ->
   exists w', verifySignature coin w = (Ok false, w')) /\
  (forall sig unblinded message b,
     toString_method (signature coin) = Ok sig ->
     new_BigInteger sig = Ok unblinded ->
     coin_toString coin = Ok message ->
     blindSignatures_verify unblinded N E message = Ok b ->
     verifySignature coin w = (Ok b, w)).
Proof.
  split; [apply verifySignature_returns|]. split; [|split].
  - intros e He. rewrite verifySignature_run, He. reflexivity.
  - intros Hs. rewrite verifySignature_run. unfold verification.
    rewrite Hs. cbn. eauto.
  - intros sig u m b H1 H2 H3 H4. rewrite verifySignature_run.
    unfold verification. rewrite H1, H2, H3, H4. reflexivity.
Qed.


(** *** Transcripts of one coin *)

Lemma decrypt_values_NaN_l (v : jsval) (d : string) :
  decrypt_values JNaN v <> Ok d.
Proof. discriminate. Qed.

(** Where two acceptances of a coin revealed a share each, the position
    identifies nobody or the purchaser the coin was built for. *)
Lemma revealed_shares_identify (coin : Coin) (purchaser : string)
    (T1 T2 : list RisElement) (i : nat) (r1 r2 : RisElement) :
  reveals_identity coin purchaser -> i < COIN_RIS_LENGTH ->
  nth_error T1 i = Some r1 -> getRis coin (isLeft r1) i = Ok (value r1) ->
  nth_error T2 i = Some r2 -> getRis coin (isLeft r2) i = Ok (value r2) ->
  identifies T1 T2 i = None \/
  identifies T1 T2 i = Some (identity_string IDENT_STR purchaser).
Proof.
  intros Hc Hi Hn1 Hg1 Hn2 Hg2.
  destruct (Hc i Hi) as (l & r & Hl & Hr & Hlr & Hrl).
  assert (Hv1 : value r1 = l \/ value r1 = r)
    by (destruct (isLeft r1); [left|right]; congruence).
  assert (Hv2 : value r2 = l \/ value r2 = r)
    by (destruct (isLeft r2); [left|right]; congruence).
  unfold identifies. rewrite Hn1, Hn2.
  destruct (strict_neq (value r1) (value r2)) eqn:Hneq; [|left; reflexivity].
  assert (Hpre : prefix IDENT_STR (identity_string IDENT_STR purchaser) = true)
    by apply prefix_append.
  destruct Hv1 as [Hv1|Hv1], Hv2 as [Hv2|Hv2]; rewrite Hv1, Hv2 in Hneq |- *.
  - apply strict_neq_self in Hneq. rewrite Hneq in Hlr.
    exfalso. exact (decrypt_values_NaN_l _ _ Hlr).
  - rewrite Hlr, Hpre. right. reflexivity.
  - rewrite Hrl, Hpre. right. reflexivity.
  - apply strict_neq_self in Hneq. rewrite Hneq in Hrl.
    exfalso. exact (decrypt_values_NaN_l _ _ Hrl).
Qed.

Lemma determineCheater_same_coin (coin : Coin) (purchaser : string)
    (guid : jsval) (w1 w1' w2 w2' w : world) (T1 T2 : list RisElement) :
  colon_free IDENT_STR = true -> colon_free purchaser = true ->
  reveals_identity coin purchaser ->
  acceptCoin coin w1 = (Ok T1, w1') ->
  acceptCoin coin w2 = (Ok T2, w2') ->
  exists v w',
    determineCheater guid (JArray T1) (JArray T2) w = (Ok v, w') /\
    (v = JString purchaser \/ v = JString "merchant").
Proof.
  intros Hident Hpurch Hc H1 H2.
  apply acceptCoin_ok in H1 as (p1 & s1 & lh1 & rh1 & _ & _ & _ & Hlen1 & Hk1).
  apply acceptCoin_ok in H2 as (p2 & s2 & lh2 & rh2 & _ & _ & _ & Hlen2 & Hk2).
  assert (Hid : forall i, i < COIN_RIS_LENGTH ->
            identifies T1 T2 i = None \/
            identifies T1 T2 i = Some (identity_string IDENT_STR purchaser)).
  { intros i Hi.
    destruct (Hk1 i Hi) as (r1 & Hn1 & _ & _ & Hg1 & _).
    destruct (Hk2 i Hi) as (r2 & Hn2 & _ & _ & Hg2 & _).
    eapply revealed_shares_identify; eassumption. }
  destruct (first_identified T1 T2 COIN_RIS_LENGTH)
    as [Hs|(i & d & Hi & Hd & Hs)].
  - destruct (determineCheater_silent guid T1 T2 w) as (w' & Hw' & _);
      [lia | lia | exact Hs |].
    exists (JString "merchant"), w'. split; [exact Hw'|right; reflexivity].
  - destruct (determineCheater_found guid T1 T2 i d w Hi Hs Hd)
      as (w' & Hw' & _).
    exists (purchaser_of d), w'. split; [exact Hw'|left].
    destruct (Hid i Hi) as [Hnone|Hsome]; [congruence|].
    rewrite Hd in Hsome. injection Hsome as ->.
    apply purchaser_of_delimited; assumption.
Qed.

(** C9: for two transcripts that [acceptCoin] returned for a coin built for
    the purchaser ["alice"], [determineCheater] returns a value, and this
    value is ["alice"] or ["merchant"]. *)
Theorem determineCheater_alice_or_merchant (coin : Coin) (guid : jsval)
    (w1 w1' w2 w2' w : world) (T1 T2 : list RisElement) :
  colon_free IDENT_STR = true ->
  reveals_identity coin "alice" ->
  acceptCoin coin w1 = (Ok T1, w1') ->
  acceptCoin coin w2 = (Ok T2, w2') ->
  exists v w',
    determineCheater guid (JArray T1) (JArray T2) w = (Ok v, w') /\
    (v = JString "alice" \/ v = JString "merchant").
Proof.
  intros Hident. apply determineCheater_same_coin; [exact Hident|reflexivity].
Qed.

(** *** More on determineCheater *)

Lemma value_at_values (a b : list RisElement) (i : nat) :
  map value a = map value b -> value_at a i = value_at b i.
Proof.
  intros H. unfold value_at.
  assert (Hn : nth_error (map value a) i = nth_error (map value b) i)
    by (rewrite H; reflexivity).
  rewrite !nth_error_map in Hn.
  destruct (nth_error a i), (nth_error b i); cbn in Hn; congruence.
Qed.

Lemma scan_verdict_values (guid guid' : jsval)
    (a1 a2 b1 b2 : list RisElement) (n : nat) :
  map value a1 = map value b1 -> map value a2 = map value b2 ->
  forall (i : nat) (w w' : world),
    fst (scan guid a1 a2 n i w) = fst (scan guid' b1 b2 n i w').
Proof.
  intros H1 H2. induction n as [|n IH]; intros i w w'; [reflexivity|].
  cbn [scan]. unfold bind. rewrite !scan_position_run.
  rewrite (value_at_values a1 b1 i H1), (value_at_values a2 b2 i H2).
  destruct (value_at b1 i) as [v1|e1]; [|reflexivity].
  destruct (value_at b2 i) as [v2|e2]; [|reflexivity].
  destruct (strict_neq v1 v2); [|apply IH].
  destruct (decrypt_values v1 v2) as [d|e]; [|apply IH].
  destruct (prefix IDENT_STR d); [reflexivity|apply IH].
Qed.

(** What the loop leaves in the world: the random source untouched, a
    line of [console.error] per decoding error, and the fraud report when
    it returns from inside. *)
Lemma scan_trace (guid : jsval) (ris1 ris2 : list RisElement) (n : nat) :
  forall (i : nat) (w : world) (o : outcome (option jsval)) (w' : world),
    scan guid ris1 ris2 n i w = (o, w') ->
    rng_calls w' = rng_calls w /\
    exists errs,
      forallb is_console_error errs = true /\
      events w' =
      (events w ++ errs ++
         match o with
         | Ok (Some p) => [ConsoleLog (fraud_line guid p)]
         | _ => []
         end)%list.
Proof.
  induction n as [|n IH]; intros i w o w' H.
  - injection H as <- <-. split; [reflexivity|].
    exists []. split; [reflexivity|]. cbn. rewrite app_nil_r. reflexivity.
  - cbn [scan] in H. unfold bind in H. rewrite scan_position_run in H.
    assert (Hnone : forall e0, (Throw e0, w) = (o, w') ->
              rng_calls w' = rng_calls w /\
              exists errs,
                forallb is_console_error errs = true /\
                events w' =
                (events w ++ errs ++
                   match o with
                   | Ok (Some p) => [ConsoleLog (fraud_line guid p)]
                   | _ => []
                   end)%list).
    { intros e0 He. injection He as <- <-. split; [reflexivity|].
      exists []. split; [reflexivity|]. cbn. rewrite app_nil_r. reflexivity. }
    destruct (value_at ris1 i) as [v1|e1]; [|eapply Hnone; exact H].
    destruct (value_at ris2 i) as [v2|e2]; [|eapply Hnone; exact H].
    destruct (strict_neq v1 v2); [|eapply IH; exact H].
    destruct (decrypt_values v1 v2) as [d|e].
    + destruct (prefix IDENT_STR d); [|eapply IH; exact H].
      injection H as <- <-. split; [reflexivity|].
      exists []. split; reflexivity.
    + apply IH in H as (Hr & errs & Herrs & Hev).
      split; [exact Hr|].
      exists (ConsoleError ("Decryption failed: " ++ err_message e) :: errs).
      split; [exact Herrs|].
      rewrite Hev. cbn [record events]. rewrite <- app_assoc. reflexivity.
Qed.

(** Silent positions are passed. *)
Lemma scan_skip_silent (guid : jsval) (ris1 ris2 : list RisElement) (k : nat) :
  forall (n i : nat) (w : world),
    i + k <= length ris1 -> i + k <= length ris2 ->
    (forall j, i <= j < i + k -> identifies ris1 ris2 j = None) ->
    exists w', scan guid ris1 ris2 (k + n) i w
               = scan guid ris1 ris2 n (i + k) w'.
Proof.
  induction k as [|k IH]; intros n i w H1 H2 Hs.
  - exists w. rewrite Nat.add_0_r. reflexivity.
  - destruct (scan_position_silent guid ris1 ris2 i w) as [w1 Hw1];
      [lia | lia | apply Hs; lia |].
    destruct (IH n (S i) w1) as [w2 Hw2];
      [lia | lia | intros; apply Hs; lia |].
    exists w2. change (S k + n) with (S (k + n)). cbn [scan]. unfold bind.
    rewrite Hw1, Hw2. replace (S i + k) with (i + S k) by lia. reflexivity.
Qed.

Lemma purchaser_of_colon_free (d : string) :
  colon_free d = true -> purchaser_of d = JUndefined.
Proof.
  intros H. unfold purchaser_of. rewrite (split_on_colon_free _ H).
  reflexivity.
Qed.

Lemma purchaser_of_second_field (head p rest : string) :
  colon_free head = true -> colon_free p = true ->
  purchaser_of (head ++ ":" ++ p ++ ":" ++ rest) = JString p.
Proof.
  intros Hh Hp. unfold purchaser_of.
  rewrite (split_on_delimited _ _ Hh), (split_on_delimited _ _ Hp).
  reflexivity.
Qed.

(** X7: of two arrays of which one is shorter than [COIN_RIS_LENGTH],
    when no position that both hold identifies a spender, the call throws
    the [TypeError] of reading [value] of [undefined]. *)
Theorem determineCheater_short_transcript
    (guid : jsval) (ris1 ris2 : list RisElement) (w : world) :
  Nat.min (length ris1) (length ris2) < COIN_RIS_LENGTH ->
  (forall j, j < Nat.min (length ris1) (length ris2) ->
     identifies ris1 ris2 j = None) ->
  exists w',
    determineCheater guid (JArray ris1) (JArray ris2) w
    = (Throw (mkError TypeError
                "Cannot read properties of undefined (reading 'value')"), w').
Proof.
  intros Hm Hs. rewrite determineCheater_run.
  set (m := Nat.min (length ris1) (length ris2)) in *.
  replace COIN_RIS_LENGTH with (m + S (COIN_RIS_LENGTH - S m)) by lia.
  destruct (scan_skip_silent guid ris1 ris2 m (S (COIN_RIS_LENGTH - S m)) 0 w)
    as [w1 ->]; [lia | lia | intros; apply Hs; lia |].
  exists w1. cbn [scan Nat.add]. unfold bind. rewrite scan_position_run.
  unfold value_at.
  destruct (nth_error ris1 m) as [e1|] eqn:H1; [|reflexivity].
  destruct (nth_error ris2 m) as [e2|] eqn:H2; [|reflexivity].
  assert (m < length ris1) by (apply nth_error_Some; congruence).
  assert (m < length ris2) by (apply nth_error_Some; congruence).
  lia.
Qed.

(** X8: the outcome of [determineCheater] depends on the [value] fields of
    the two transcripts only: the recorded [position], [isLeft] and [hash],
    the [guid] and the state of the console do not change it. *)
Theorem determineCheater_reads_values_only
    (guid guid' : jsval) (a1 a2 b1 b2 : list RisElement) (w w' : world) :
  map value a1 = map value b1 -> map value a2 = map value b2 ->
  fst (determineCheater guid (JArray a1) (JArray a2) w)
  = fst (determineCheater guid' (JArray b1) (JArray b2) w').
Proof.
  intros H1 H2. rewrite !determineCheater_run.
  pose proof (scan_verdict_values guid guid' a1 a2 b1 b2 COIN_RIS_LENGTH
                H1 H2 0 w w') as H.
  destruct (scan guid a1 a2 COIN_RIS_LENGTH 0 w) as [[[p|]|e] w1];
    destruct (scan guid' b1 b2 COIN_RIS_LENGTH 0 w') as [[[p'|]|e'] w1'];
    cbn in H |- *; congruence.
Qed.

(** X9: when the string decoded at the first identifying position holds no
    [':'], [determineCheater] returns [undefined] and reports a double
    spending by "undefined". *)
Theorem determineCheater_undefined_purchaser
    (guid : jsval) (ris1 ris2 : list RisElement) (i : nat)
    (decrypted : string) (w : world) :
  i < COIN_RIS_LENGTH ->
  (forall j, j < i -> identifies ris1 ris2 j = None) ->
  identifies ris1 ris2 i = Some decrypted ->
  colon_free decrypted = true ->
  exists w',
    determineCheater guid (JArray ris1) (JArray ris2) w = (Ok JUndefined, w') /\
    ends_with w'
      (ConsoleLog (nl ++ "[FRAUD DETECTED] Coin " ++ display guid
                      ++ " was double-spent by: undefined")).
Proof.
  intros Hi Hs Hd Hc.
  destruct (determineCheater_found guid ris1 ris2 i decrypted w Hi Hs Hd)
    as (w' & Hrun & Hend & _).
  rewrite (purchaser_of_colon_free _ Hc) in Hrun, Hend.
  exists w'. split; [exact Hrun|exact Hend].
Qed.

(** X10: the value returned is what stands between the first and the
    second [':'] of the decoded string: an identity that holds a [':'] is
    cut there, and what precedes the first [':'] is only tested for the
    [IDENT_STR] prefix. *)
Theorem determineCheater_cuts_at_colon
    (guid : jsval) (ris1 ris2 : list RisElement) (i : nat)
    (head p rest : string) (w : world) :
  i < COIN_RIS_LENGTH ->
  (forall j, j < i -> identifies ris1 ris2 j = None) ->
  identifies ris1 ris2 i = Some (head ++ ":" ++ p ++ ":" ++ rest) ->
  colon_free head = true -> colon_free p = true ->
  exists w',
    determineCheater guid (JArray ris1) (JArray ris2) w = (Ok (JString p), w').
Proof.
  intros Hi Hs Hd Hh Hp.
  destruct (determineCheater_found guid ris1 ris2 i _ w Hi Hs Hd)
    as (w' & Hrun & _).
  rewrite (purchaser_of_second_field _ _ _ Hh Hp) in Hrun.
  exists w'. exact Hrun.
Qed.

(** What the loop has written, line for line. *)
Lemma scan_trace_exact (guid : jsval) (ris1 ris2 : list RisElement) (n : nat) :
  forall (i : nat) (w : world) (o : outcome (option jsval)) (w' : world),
    scan guid ris1 ris2 n i w = (o, w') ->
    match o with
    | Ok None =>
        (forall j, i <= j < i + n -> identifies ris1 ris2 j = None) /\
        events w' = (events w ++ decode_error_lines ris1 ris2 i n)%list
    | Ok (Some p) =>
        exists k d,
          k < n /\
          (forall j, i <= j < i + k -> identifies ris1 ris2 j = None) /\
          identifies ris1 ris2 (i + k) = Some d /\
          p = purchaser_of d /\
          events w' =
          (events w ++ decode_error_lines ris1 ris2 i k
             ++ [ConsoleLog (fraud_line guid p)])%list
    | Throw _ => True
    end.
Proof.
  induction n as [|n IH]; intros i w o w' H.
  - injection H as <- <-. split; [intros j Hj; lia|].
    cbn. rewrite app_nil_r. reflexivity.
  - cbn [scan] in H. unfold bind in H. rewrite scan_position_run in H.
    assert (Hgo : forall w1 here,
              identifies ris1 ris2 i = None ->
              match decode_fails ris1 ris2 i with
              | Some e => [ConsoleError ("Decryption failed: " ++ err_message e)]
              | None => []
              end = here ->
              events w1 = (events w ++ here)%list ->
              scan guid ris1 ris2 n (S i) w1 = (o, w') ->
              match o with
              | Ok None =>
                  (forall j, i <= j < i + S n -> identifies ris1 ris2 j = None) /\
                  events w' = (events w ++ decode_error_lines ris1 ris2 i (S n))%list
              | Ok (Some p) =>
                  exists k d,
                    k < S n /\
                    (forall j, i <= j < i + k -> identifies ris1 ris2 j = None) /\
                    identifies ris1 ris2 (i + k) = Some d /\
                    p = purchaser_of d /\
                    events w' =
                    (events w ++ decode_error_lines ris1 ris2 i k
                       ++ [ConsoleLog (fraud_line guid p)])%list
              | Throw _ => True
              end).
    { intros w1 here Hid Hhere Hev Hrest. apply IH in Hrest.
      destruct o as [[p|]|e]; [| |exact I].
      - destruct Hrest as (k & d & Hk & Hs & Hd & Hp & He).
        exists (S k), d. split; [lia|]. split.
        + intros j Hj. destruct (Nat.eq_dec j i) as [->|]; [exact Hid|].
          apply Hs. lia.
        + split; [replace (i + S k) with (S i + k) by lia; exact Hd|].
          split; [exact Hp|].
          rewrite He, Hev. unfold decode_error_lines. cbn [seq flat_map].
          rewrite Hhere, <- !app_assoc. reflexivity.
      - destruct Hrest as (Hs & He). split.
        + intros j Hj. destruct (Nat.eq_dec j i) as [->|]; [exact Hid|].
          apply Hs. lia.
        + rewrite He, Hev. unfold decode_error_lines. cbn [seq flat_map].
          rewrite Hhere, <- !app_assoc. reflexivity. }
    unfold value_at in H. unfold identifies, decode_fails in Hgo.
    destruct (nth_error ris1 i) as [e1|] eqn:H1;
      [|injection H as <- <-; exact I].
    destruct (nth_error ris2 i) as [e2|] eqn:H2;
      [|injection H as <- <-; exact I].
    destruct (strict_neq (value e1) (value e2)) eqn:Hneq.
    + destruct (decrypt_values (value e1) (value e2)) as [d|e] eqn:Hdec.
      * destruct (prefix IDENT_STR d) eqn:Hpre.
        -- injection H as <- <-. exists 0, d. split; [lia|].
           split; [intros j Hj; lia|]. rewrite Nat.add_0_r.
           unfold identifies. rewrite H1, H2, Hneq, Hdec, Hpre.
           repeat split; reflexivity.
        -- apply (Hgo w []); [reflexivity | reflexivity | | exact H].
           rewrite app_nil_r. reflexivity.
      * apply (Hgo (record w (ConsoleError
                               ("Decryption failed: " ++ err_message e)))
                 [ConsoleError ("Decryption failed: " ++ err_message e)]);
          [reflexivity | reflexivity | reflexivity | exact H].
    + apply (Hgo w []); [reflexivity | reflexivity | | exact H].
      rewrite app_nil_r. reflexivity.
Qed.

(** X11: a call that returns has left the random source alone, and what it
    has written is exactly this: one line of [console.error] for each
    position scanned where decoding failed, in the order of the positions,
    then one line of [console.log].  Either no position identifies a
    spender, all [COIN_RIS_LENGTH] positions were scanned and the line is
    the report of the merchant; or the scan stopped at the first position
    that identifies a spender and the line is the fraud report for the
    value returned. *)
Theorem determineCheater_trace
    (guid : jsval) (ris1 ris2 : list RisElement) (w : world)
    (v : jsval) (w' : world) :
  determineCheater guid (JArray ris1) (JArray ris2) w = (Ok v, w') ->
  rng_calls w' = rng_calls w /\
  exists k,
    (forall j, j < k -> identifies ris1 ris2 j = None) /\
    (k = COIN_RIS_LENGTH /\
     v = JString "merchant" /\
     events w' =
     (events w ++ decode_error_lines ris1 ris2 0 COIN_RIS_LENGTH
        ++ [ConsoleLog (merchant_line guid)])%list
     \/
     k < COIN_RIS_LENGTH /\
     exists d,
       identifies ris1 ris2 k = Some d /\
       v = purchaser_of d /\
       events w' =
       (events w ++ decode_error_lines ris1 ris2 0 k
          ++ [ConsoleLog (fraud_line guid v)])%list).
Proof.
  rewrite determineCheater_run.
  destruct (scan guid ris1 ris2 COIN_RIS_LENGTH 0 w) as [[[p|]|e] w1] eqn:Hs;
    intros H; try discriminate; injection H as <- <-;
    pose proof (scan_trace _ _ _ _ _ _ _ _ Hs) as (Hr & _);
    apply scan_trace_exact in Hs.
  - destruct Hs as (k & d & Hk & Hsil & Hd & Hp & He).
    split; [exact Hr|]. exists k.
    split; [intros j Hj; apply Hsil; lia|].
    right. split; [exact Hk|]. exists d. cbn [Nat.add] in Hd.
    split; [exact Hd|]. split; [exact Hp|exact He].
  - destruct Hs as (Hsil & He).
    split; [exact Hr|]. exists COIN_RIS_LENGTH.
    split; [intros j Hj; apply Hsil; lia|].
    left. split; [reflexivity|]. split; [reflexivity|].
    cbn [record events]. rewrite He, <- app_assoc. reflexivity.
Qed.

(** *** More on acceptCoin *)

Lemma verifySignature_true (coin : Coin) (w w1 : world) :
  verifySignature coin w = (Ok true, w1) -> w1 = w.
Proof.
  rewrite verifySignature_run.
  destruct (verification coin) as [b|e]; intros H; [|discriminate].
  injection H as _ <-. reflexivity.
Qed.

Lemma challenges_events (n : nat) :
  forall (w : world) (i : nat),
    events (challenges w i n) =
    (events w ++
       flat_map
         (fun k => [RandomInt (randomInt (rng_calls w + k));
                    GetRis (select_left (rng_calls w + k)) (i + k)])
         (seq 0 n))%list.
Proof.
  induction n as [|n IH]; intros w i.
  - cbn. rewrite app_nil_r. reflexivity.
  - rewrite challenges_snoc, seq_S, flat_map_app.
    unfold after_challenge, record. cbn [events rng_calls].
    rewrite challenges_rng, IH. cbn [flat_map Nat.add].
    rewrite app_nil_r, <- !app_assoc. reflexivity.
Qed.

(** The run of [acceptCoin] up to a position that the challenges before it
    let through. *)
Lemma acceptCoin_reach (coin : Coin)
    (parse : string -> outcome (list jsval * list jsval)) (s : string)
    (lh rh : list jsval) (w w1 : world) (i : nat) :
  parseCoin = Some parse ->
  verifySignature coin w = (Ok true, w1) ->
  coin_toString coin = Ok s ->
  parse s = Ok (lh, rh) ->
  i < COIN_RIS_LENGTH ->
  (forall j, j < i -> challenge_passes coin lh rh (rng_calls w1 + j) j = true) ->
  exists acc,
    acceptCoin coin w
    = accept_loop coin lh rh (S (COIN_RIS_LENGTH - S i)) i acc
        (challenges w1 0 i).
Proof.
  intros Hp Hv Hs Hparse Hi Hpass.
  rewrite acceptCoin_run, Hv, Hp, Hs, Hparse. cbn [fst snd].
  destruct (accept_loop_skip coin lh rh i (S (COIN_RIS_LENGTH - S i)) 0 [] w1)
    as [acc Hacc].
  { intros j Hj. apply Hpass. exact Hj. }
  exists acc. cbn [Nat.add] in Hacc. rewrite <- Hacc.
  replace (i + S (COIN_RIS_LENGTH - S i)) with COIN_RIS_LENGTH by lia.
  reflexivity.
Qed.

Lemma acceptCoin_ok_world (coin : Coin) (w : world) (T : list RisElement)
    (w' : world) :
  acceptCoin coin w = (Ok T, w') -> w' = challenges w 0 COIN_RIS_LENGTH.
Proof.
  rewrite acceptCoin_run.
  destruct (verifySignature coin w) as [[[|]|e] w1] eqn:Hv; try discriminate.
  apply verifySignature_true in Hv. subst w1.
  destruct parseCoin as [parse|]; [|discriminate].
  destruct (coin_toString coin) as [s|e]; [|discriminate].
  destruct (parse s) as [hashes|e]; [|discriminate].
  intros H. apply accept_loop_ok in H as [H _]. exact H.
Qed.

Lemma strict_eq_sym (a b : jsval) : strict_eq a b = strict_eq b a.
Proof.
  destruct a, b; cbn; try reflexivity.
  - destruct b, b0; reflexivity.
  - apply Z.eqb_sym.
  - apply String.eqb_sym.
  - apply Nat.eqb_sym.
Qed.

Lemma identifies_same_value (T1 T2 : list RisElement) (i : nat)
    (r1 r2 : RisElement) :
  nth_error T1 i = Some r1 -> nth_error T2 i = Some r2 ->
  value r1 = value r2 ->
  identifies T1 T2 i = None.
Proof.
  intros H1 H2 Hv. unfold identifies. rewrite H1, H2, Hv.
  destruct (strict_neq (value r2) (value r2)) eqn:H; [|reflexivity].
  apply strict_neq_self in H. rewrite H. reflexivity.
Qed.

Lemma determineCheater_returns (guid : jsval) (ris1 ris2 : list RisElement)
    (w : world) :
  COIN_RIS_LENGTH <= length ris1 -> COIN_RIS_LENGTH <= length ris2 ->
  exists v w',
    determineCheater guid (JArray ris1) (JArray ris2) w = (Ok v, w').
Proof.
  intros H1 H2.
  destruct (first_identified ris1 ris2 COIN_RIS_LENGTH)
    as [Hs|(i & d & Hi & Hd & Hs)].
  - destruct (determineCheater_silent guid ris1 ris2 w H1 H2 Hs)
      as (w' & Hw' & _). eauto.
  - destruct (determineCheater_found guid ris1 ris2 i d w Hi Hs Hd)
      as (w' & Hw' & _). eauto.
Qed.

(** X12: an acceptance that returns a transcript has drawn one side and
    called [getRis] once for each position, in the order of the positions,
    and has done nothing else: [COIN_RIS_LENGTH] draws were consumed and
    nothing was logged. *)
Theorem acceptCoin_challenges_each_position_once
    (coin : Coin) (w : world) (T : list RisElement) (w' : world) :
  acceptCoin coin w = (Ok T, w') ->
  rng_calls w' = rng_calls w + COIN_RIS_LENGTH /\
  events w' = (events w ++ challenge_events (rng_calls w) COIN_RIS_LENGTH)%list.
Proof.
  intros H. apply acceptCoin_ok_world in H. subst w'.
  split; [apply challenges_rng|]. apply challenges_events.
Qed.

(** X13: an exception of [coin.getRis] or of [utils.hash] at a position the
    acceptance reaches is not caught: [acceptCoin] throws it as it is,
    right after the challenge of that position. *)
Theorem acceptCoin_propagates_challenge_errors (coin : Coin)
    (parse : string -> outcome (list jsval * list jsval)) (s : string)
    (leftHashes rightHashes : list jsval) (w w1 : world) (i : nat)
    (e : js_error) :
  parseCoin = Some parse ->
  verifySignature coin w = (Ok true, w1) ->
  coin_toString coin = Ok s ->
  parse s = Ok (leftHashes, rightHashes) ->
  i < COIN_RIS_LENGTH ->
  (forall j, j < i ->
     challenge_passes coin leftHashes rightHashes (rng_calls w1 + j) j = true) ->
  challenge_raises coin (rng_calls w1 + i) i = Some e ->
  acceptCoin coin w = (Throw e, challenges w1 0 (S i)).
Proof.
  intros Hp Hv Hs Hparse Hi Hpass Hraise.
  destruct (acceptCoin_reach coin parse s leftHashes rightHashes w w1 i
              Hp Hv Hs Hparse Hi Hpass) as [acc ->].
  rewrite accept_loop_run, challenges_snoc. cbv zeta.
  rewrite challenges_rng. cbn [Nat.add]. unfold challenge_raises in Hraise.
  destruct (getRis coin (select_left (rng_calls w1 + i)) i) as [el|e0].
  - destruct (utils_hash el) as [h|e0]; [discriminate|].
    injection Hraise as ->. reflexivity.
  - injection Hraise as ->. reflexivity.
Qed.

(** X14: when [parseCoin] returns fewer commitments for the chosen side
    than the position reached, the commitment read is [undefined] and the
    share revealed there, whatever it is, is refused as tampered. *)
Theorem acceptCoin_missing_commitment (coin : Coin)
    (parse : string -> outcome (list jsval * list jsval)) (s : string)
    (leftHashes rightHashes : list jsval) (w w1 : world) (i : nat)
    (element : jsval) (h : string) :
  parseCoin = Some parse ->
  verifySignature coin w = (Ok true, w1) ->
  coin_toString coin = Ok s ->
  parse s = Ok (leftHashes, rightHashes) ->
  i < COIN_RIS_LENGTH ->
  (forall j, j < i ->
     challenge_passes coin leftHashes rightHashes (rng_calls w1 + j) j = true) ->
  getRis coin (select_left (rng_calls w1 + i)) i = Ok element ->
  utils_hash element = Ok h ->
  length (if select_left (rng_calls w1 + i) then leftHashes else rightHashes)
  <= i ->
  acceptCoin coin w
  = (Throw (mkError Error
              ("RIS validation failed at position " ++ string_of_nat i)),
     challenges w1 0 (S i)).
Proof.
  intros Hp Hv Hs Hparse Hi Hpass Hg Hh Hlen.
  destruct (acceptCoin_reach coin parse s leftHashes rightHashes w w1 i
              Hp Hv Hs Hparse Hi Hpass) as [acc ->].
  rewrite accept_loop_mismatch.
  - rewrite challenges_snoc. reflexivity.
  - rewrite challenges_rng. cbn [Nat.add]. unfold hash_mismatch.
    rewrite Hg, Hh. unfold expected_hash, index_val.
    destruct (select_left (rng_calls w1 + i));
      rewrite (nth_overflow _ _ Hlen); reflexivity.
Qed.

(** *** acceptCoin and determineCheater together *)

(** X4: two transcripts returned by [acceptCoin], of the same coin or not,
    are always long enough for [determineCheater]: the call returns a value
    and throws nothing, whatever the shares and the decoder are. *)
Theorem determineCheater_accepts_transcripts
    (coin coin' : Coin) (guid : jsval) (w1 w1' w2 w2' w : world)
    (T1 T2 : list RisElement) :
  acceptCoin coin w1 = (Ok T1, w1') ->
  acceptCoin coin' w2 = (Ok T2, w2') ->
  exists v w',
    determineCheater guid (JArray T1) (JArray T2) w = (Ok v, w').
Proof.
  intros H1 H2.
  apply acceptCoin_ok in H1 as (p1 & s1 & lh1 & rh1 & _ & _ & _ & Hlen1 & _).
  apply acceptCoin_ok in H2 as (p2 & s2 & lh2 & rh2 & _ & _ & _ & Hlen2 & _).
  apply determineCheater_returns; lia.
Qed.

(** X5: when two acceptances of one coin drew the same side at every
    position, [determineCheater] reports the merchant, whoever spent the
    coin twice. *)
Theorem determineCheater_same_sides_merchant
    (coin : Coin) (guid : jsval) (w1 w1' w2 w2' w : world)
    (T1 T2 : list RisElement) :
  acceptCoin coin w1 = (Ok T1, w1') ->
  acceptCoin coin w2 = (Ok T2, w2') ->
  (forall i, i < COIN_RIS_LENGTH ->
     select_left (rng_calls w1 + i) = select_left (rng_calls w2 + i)) ->
  exists w',
    determineCheater guid (JArray T1) (JArray T2) w
    = (Ok (JString "merchant"), w').
Proof.
  intros H1 H2 Hsame.
  apply acceptCoin_ok in H1 as (p1 & s1 & lh1 & rh1 & _ & _ & _ & Hlen1 & Hk1).
  apply acceptCoin_ok in H2 as (p2 & s2 & lh2 & rh2 & _ & _ & _ & Hlen2 & Hk2).
  destruct (determineCheater_silent guid T1 T2 w) as (w' & Hw' & _);
    [lia | lia | | exists w'; exact Hw'].
  intros i Hi.
  destruct (Hk1 i Hi) as (r1 & Hn1 & _ & Hl1 & Hg1 & _).
  destruct (Hk2 i Hi) as (r2 & Hn2 & _ & Hl2 & Hg2 & _).
  apply (identifies_same_value T1 T2 i r1 r2 Hn1 Hn2).
  rewrite Hl1, (Hsame i Hi), <- Hl2, Hg2 in Hg1. congruence.
Qed.

(** X6: for a coin that keeps the share contract for [purchaser] and whose
    two shares of a position are different objects, when two acceptances
    drew different sides at some position [determineCheater] returns
    [purchaser]. *)
Theorem determineCheater_different_sides_identify
    (coin : Coin) (purchaser : string) (guid : jsval)
    (w1 w1' w2 w2' w : world) (T1 T2 : list RisElement) (i : nat) :
  colon_free IDENT_STR = true -> colon_free purchaser = true ->
  reveals_identity coin purchaser ->
  distinct_shares coin ->
  acceptCoin coin w1 = (Ok T1, w1') ->
  acceptCoin coin w2 = (Ok T2, w2') ->
  i < COIN_RIS_LENGTH ->
  select_left (rng_calls w1 + i) <> select_left (rng_calls w2 + i) ->
  exists w',
    determineCheater guid (JArray T1) (JArray T2) w
    = (Ok (JString purchaser), w').
Proof.
  intros Hident Hpurch Hc Hdist H1 H2 Hi Hdiff.
  apply acceptCoin_ok in H1 as (p1 & s1 & lh1 & rh1 & _ & _ & _ & Hlen1 & Hk1).
  apply acceptCoin_ok in H2 as (p2 & s2 & lh2 & rh2 & _ & _ & _ & Hlen2 & Hk2).
  assert (Hhere : identifies T1 T2 i
                  = Some (identity_string IDENT_STR purchaser)).
  { destruct (Hk1 i Hi) as (r1 & Hn1 & _ & Hl1 & Hg1 & _).
    destruct (Hk2 i Hi) as (r2 & Hn2 & _ & Hl2 & Hg2 & _).
    destruct (Hc i Hi) as (l & r & Hl & Hr & Hlr & Hrl).
    pose proof (Hdist i l r Hi Hl Hr) as Hneq.
    assert (Hpre : prefix IDENT_STR (identity_string IDENT_STR purchaser) = true)
      by apply prefix_append.
    rewrite <- Hl1, <- Hl2 in Hdiff.
    unfold identifies. rewrite Hn1, Hn2.
    destruct (isLeft r1), (isLeft r2); try congruence.
    - assert (value r1 = l) as -> by congruence.
      assert (value r2 = r) as -> by congruence.
      rewrite Hneq, Hlr, Hpre. reflexivity.
    - assert (value r1 = r) as -> by congruence.
      assert (value r2 = l) as -> by congruence.
      unfold strict_neq in *. rewrite strict_eq_sym, Hneq, Hrl, Hpre.
      reflexivity. }
  destruct (first_identified T1 T2 COIN_RIS_LENGTH)
    as [Hs|(i' & d & Hi' & Hd & Hs)].
  - rewrite (Hs i Hi) in Hhere. discriminate.
  - destruct (determineCheater_found guid T1 T2 i' d w Hi' Hs Hd)
      as (w' & Hw' & _).
    exists w'. rewrite Hw'. do 2 f_equal.
    destruct (Hk1 i' Hi') as (r1 & Hn1 & _ & _ & Hg1 & _).
    destruct (Hk2 i' Hi') as (r2 & Hn2 & _ & _ & Hg2 & _).
    destruct (revealed_shares_identify coin purchaser T1 T2 i' r1 r2
                Hc Hi' Hn1 Hg1 Hn2 Hg2) as [Hnone|Hsome]; [congruence|].
    rewrite Hd in Hsome. injection Hsome as ->.
    apply purchaser_of_delimited; assumption.
Qed.

(** *** signCoin *)

Lemma no_new_challenge_refl (w : world) : no_new_challenge w w.
Proof.
  split; [reflexivity|]. exists []. rewrite app_nil_r. split; reflexivity.
Qed.

Lemma no_new_challenge_trans (w1 w2 w3 : world) :
  no_new_challenge w1 w2 -> no_new_challenge w2 w3 -> no_new_challenge w1 w3.
Proof.
  intros (Hr1 & t1 & He1 & Hc1) (Hr2 & t2 & He2 & Hc2).
  split; [congruence|]. exists (t1 ++ t2)%list.
  split; [rewrite He2, He1, app_assoc; reflexivity|].
  rewrite existsb_app, Hc1, Hc2. reflexivity.
Qed.

Lemma no_new_challenge_log (w : world) (line : string) :
  no_new_challenge w (record w (ConsoleLog line)).
Proof. split; [reflexivity|]. eexists. split; reflexivity. Qed.

Lemma no_new_challenge_error (w : world) (line : string) :
  no_new_challenge w (record w (ConsoleError line)).
Proof. split; [reflexivity|]. eexists. split; reflexivity. Qed.

Lemma signCoin_world (v : jsval) (w : world) (o : outcome string) (w' : world) :
  signCoin v w = (o, w') -> no_new_challenge w w'.
Proof.
  unfold signCoin, try_catch, bind, lift, throw, ret, console_error, emit.
  destruct (truthy v); cbn [negb].
  - destruct (toString_method v) as [s|e].
    + destruct (new_BigInteger s) as [b|e].
      * destruct (blindSignatures_sign b BANK_KEY) as [signed|e];
          intros H; injection H as _ <-;
          [apply no_new_challenge_refl|apply no_new_challenge_error].
      * intros H; injection H as _ <-. apply no_new_challenge_error.
    + intros H; injection H as _ <-. apply no_new_challenge_error.
  - intros H; injection H as _ <-. apply no_new_challenge_refl.
Qed.


(** *** main *)

Lemma bind_ok {A B : Type} (m : M A) (k : A -> M B) (w : world)
    (b : B) (w' : world) :
  bind m k w = (Ok b, w') ->
  exists a w1, m w = (Ok a, w1) /\ k a w1 = (Ok b, w').
Proof.
  unfold bind. destruct (m w) as [[a|e] w1]; [eauto|discriminate].
Qed.

Lemma bind_throw {A B : Type} (m : M A) (k : A -> M B) (w : world)
    (e : js_error) (w1 : world) :
  m w = (Throw e, w1) -> bind m k w = (Throw e, w1).
Proof. intros H. unfold bind. rewrite H. reflexivity. Qed.

Lemma bind_step {A B : Type} (m : M A) (k : A -> M B) (w : world)
    (a : A) (w1 : world) :
  m w = (Ok a, w1) -> bind m k w = k a w1.
Proof. intros H. unfold bind. rewrite H. reflexivity. Qed.

(** With [parseCoin] unbound an acceptance throws before any challenge. *)
Lemma acceptCoin_unbound (coin : Coin) (w : world) :
  parseCoin = None ->
  exists e w', acceptCoin coin w = (Throw e, w') /\ no_new_challenge w w'.
Proof.
  intros Hp. rewrite acceptCoin_run, Hp.
  destruct (verifySignature_returns coin w) as (b & w1 & Hv). rewrite Hv.
  apply verifySignature_world in Hv.
  destruct b; eexists; exists w1; (split; [reflexivity|exact Hv]).
Qed.

Lemma log_step {B : Type} (line : string) (k : unit -> M B) (w : world) :
  bind (console_log line) k w = k tt (record w (ConsoleLog line)).
Proof. reflexivity. Qed.

Lemma lift_step {A B : Type} (o : outcome A) (k : A -> M B) (w : world) :
  bind (lift o) k w =
  match o with
  | Ok a => k a w
  | Throw e => (Throw e, w)
  end.
Proof. unfold bind, lift. destruct o; reflexivity. Qed.

(** A [try] block of [main] that throws without a challenge. *)
Lemma main_body_unbound (w : world) :
  parseCoin = None ->
  exists e w', main_body w = (Throw e, w') /\ no_new_challenge w w'.
Proof.
  intros Hp. unfold main_body. rewrite log_step, lift_step.
  set (w0 := record w (ConsoleLog (nl ++ "=== Creating New Coin ==="))).
  assert (H0 : no_new_challenge w w0) by apply no_new_challenge_log.
  destruct (new_Coin "alice" 20 (BigInteger_toString N) (BigInteger_toString E))
    as [coin|e].
  2:{ exists e, w0. split; [reflexivity|exact H0]. }
  rewrite log_step.
  set (w1 := record w0 (ConsoleLog (nl ++ "=== Signing Coin ==="))).
  assert (H1 : no_new_challenge w w1)
    by (eapply no_new_challenge_trans; [exact H0|apply no_new_challenge_log]).
  destruct (signCoin (coin_blinded coin) w1) as [[sig|e] w2] eqn:Hs.
  2:{ exists e, w2. split; [apply bind_throw; exact Hs|].
      eapply no_new_challenge_trans; [exact H1|].
      eapply signCoin_world. exact Hs. }
  assert (H2 : no_new_challenge w w2).
  { eapply no_new_challenge_trans; [exact H1|].
    eapply signCoin_world. exact Hs. }
  rewrite (bind_step _ _ w1 sig w2 Hs), lift_step.
  destruct (coin_unblind (set_signature coin (JString sig))) as [coin'|e].
  2:{ exists e, w2. split; [reflexivity|exact H2]. }
  rewrite !log_step.
  set (w3 := record (record w2 (ConsoleLog "Coin signed successfully"))
               (ConsoleLog (nl ++ "=== Merchant 1 Accepting Coin ==="))).
  assert (H3 : no_new_challenge w w3).
  { eapply no_new_challenge_trans; [exact H2|].
    eapply no_new_challenge_trans; apply no_new_challenge_log. }
  destruct (acceptCoin_unbound coin' w3 Hp) as (e & w4 & Ha & H4).
  exists e, w4. split; [apply bind_throw; exact Ha|].
  eapply no_new_challenge_trans; eassumption.
Qed.


(** X3: when [main] returns, [parseCoin] was bound and the run was this
    one: [new Coin('alice', 20, ...)] gave a coin, [signCoin] signed its
    blinded message, [unblind] gave the coin that both merchants accepted,
    each with [COIN_RIS_LENGTH] draws, [determineCheater] was called with
    the guid of that coin on the two transcripts, then on the first
    transcript twice; this second call reported the merchant, and its
    report for the guid of that coin is the last line on the console. *)
Theorem main_returns_on_merchant_report (w w' : world) :
  main w = (Returned, w') ->
  parseCoin <> None /\
  rng_calls w' = rng_calls w + 2 * COIN_RIS_LENGTH /\
  exists coin0 sig coin ris1 ris2 v w2 w4 w6 w8,
    new_Coin "alice" 20 (BigInteger_toString N) (BigInteger_toString E)
    = Ok coin0 /\
    signCoin (coin_blinded coin0)
      (record (record w (ConsoleLog (nl ++ "=== Creating New Coin ===")))
         (ConsoleLog (nl ++ "=== Signing Coin ===")))
    = (Ok sig, w2) /\
    coin_unblind (set_signature coin0 (JString sig)) = Ok coin /\
    acceptCoin coin
      (record (record w2 (ConsoleLog "Coin signed successfully"))
         (ConsoleLog (nl ++ "=== Merchant 1 Accepting Coin ===")))
    = (Ok ris1, w4) /\
    acceptCoin coin
      (record (record w4 (ConsoleLog "Merchant 1 accepted coin"))
         (ConsoleLog (nl ++ "=== Merchant 2 Accepting Coin ===")))
    = (Ok ris2, w6) /\
    determineCheater (guid coin) (JArray ris1) (JArray ris2)
      (record (record w6 (ConsoleLog "Merchant 2 accepted coin"))
         (ConsoleLog (nl ++ "=== Fraud Detection ===")))
    = (Ok v, w8) /\
    determineCheater (guid coin) (JArray ris1) (JArray ris1) w8
    = (Ok (JString "merchant"), w') /\
    ends_with w' (ConsoleLog (merchant_line (guid coin))).
Proof.
  intros H. split.
  - intros Hp. destruct (main_body_unbound w Hp) as (e & w1 & Hb & _).
    unfold main in H. rewrite Hb in H. discriminate.
  - unfold main in H.
    destruct (main_body w) as [[u|e] w1] eqn:Hb; [|discriminate].
    injection H as <-. unfold main_body in Hb.
    apply bind_ok in Hb as ([] & w2 & H1 & Hb). injection H1 as <-.
    apply bind_ok in Hb as (coin0 & w3 & H2 & Hb).
    unfold lift in H2. injection H2 as H2 <-.
    apply bind_ok in Hb as ([] & w4 & H3 & Hb). injection H3 as <-.
    apply bind_ok in Hb as (sig & w5 & Hs & Hb).
    apply bind_ok in Hb as (coin & w6 & H4 & Hb).
    unfold lift in H4. injection H4 as H4 <-.
    apply bind_ok in Hb as ([] & w7 & H5 & Hb). injection H5 as <-.
    apply bind_ok in Hb as ([] & w8 & H6 & Hb). injection H6 as <-.
    apply bind_ok in Hb as (ris1 & w9 & Ha1 & Hb).
    apply bind_ok in Hb as ([] & w10 & H7 & Hb). injection H7 as <-.
    apply bind_ok in Hb as ([] & w11 & H8 & Hb). injection H8 as <-.
    apply bind_ok in Hb as (ris2 & w12 & Ha2 & Hb).
    apply bind_ok in Hb as ([] & w13 & H9 & Hb). injection H9 as <-.
    apply bind_ok in Hb as ([] & w14 & H10 & Hb). injection H10 as <-.
    apply bind_ok in Hb as (v1 & w15 & Hd1 & Hb).
    apply bind_ok in Hb as (v2 & w16 & Hd2 & Hb).
    injection Hb as _ <-.
    pose proof (signCoin_world _ _ _ _ Hs) as [Hr5 _].
    pose proof (acceptCoin_ok_world _ _ _ _ Ha1) as Hw9.
    pose proof (acceptCoin_ok_world _ _ _ _ Ha2) as Hw12.
    pose proof (acceptCoin_ok _ _ _ _ Ha1)
      as (p1 & s1 & lh1 & rh1 & _ & _ & _ & Hlen1 & _).
    destruct (determineCheater_silent (guid coin) ris1 ris1 w15)
      as (w16' & Hm & Hend); [lia | lia | intros; apply identifies_self |].
    rewrite Hd2 in Hm. injection Hm as Hv2 Hw16. subst v2 w16'.
    split.
    + pose proof Hd1 as Hd1'. pose proof Hd2 as Hd2'.
      rewrite determineCheater_run in Hd1', Hd2'.
      destruct (scan (guid coin) ris1 ris2 COIN_RIS_LENGTH 0 _)
        as [o1 w15'] eqn:Hs1.
      apply scan_trace in Hs1 as [Hr15 _].
      assert (Hr15' : rng_calls w15 = rng_calls w12).
      { destruct o1 as [[p|]|e]; [| |discriminate];
          injection Hd1' as _ <-; exact Hr15. }
      destruct (scan (guid coin) ris1 ris1 COIN_RIS_LENGTH 0 w15)
        as [o2 w16'] eqn:Hs2.
      apply scan_trace in Hs2 as [Hr16 _].
      assert (Hr16' : rng_calls w16 = rng_calls w15).
      { destruct o2 as [[p|]|e]; [| |discriminate];
          injection Hd2'; intros; subst; exact Hr16. }
      rewrite Hr16', Hr15'. subst w12 w9.
      repeat (rewrite challenges_rng; cbn [record rng_calls]).
      rewrite Hr5. cbn [record rng_calls]. lia.
    + exists coin0, sig, coin, ris1, ris2, v1, w5, w9, w12, w15.
      repeat split; assumption.
Qed.

(** *** The order of the transcripts *)

(** With a symmetric decoder the two orders decode to the same string or
    both fail. *)
Lemma decrypt_values_swap (v1 v2 : jsval) :
  (forall a b, decryptOTP a b = decryptOTP b a) ->
  match decrypt_values v1 v2, decrypt_values v2 v1 with
  | Ok d, Ok d' => d = d'
  | Throw _, Throw _ => True
  | _, _ => False
  end.
Proof.
  intros H. unfold decrypt_values.
  destruct (Buffer_from v1) as [b1|e1], (Buffer_from v2) as [b2|e2];
    try exact I.
  rewrite (H b2 b1). destruct (decryptOTP b1 b2); [reflexivity|exact I].
Qed.

(** They fail with the same error when [Buffer.from] takes one of the two
    values. *)
Lemma decrypt_values_sym (v1 v2 : jsval) :
  (forall a b, decryptOTP a b = decryptOTP b a) ->
  (exists b, Buffer_from v1 = Ok b) \/ (exists b, Buffer_from v2 = Ok b) ->
  decrypt_values v1 v2 = decrypt_values v2 v1.
Proof.
  intros H Hb. unfold decrypt_values.
  destruct (Buffer_from v1) as [b1|e1], (Buffer_from v2) as [b2|e2];
    try reflexivity; [apply H|].
  destruct Hb as [[b Hb]|[b Hb]]; discriminate.
Qed.

Lemma scan_swap_verdict (guid : jsval) (ris1 ris2 : list RisElement) (n : nat) :
  (forall a b, decryptOTP a b = decryptOTP b a) ->
  forall (i : nat) (w w' : world),
    fst (scan guid ris1 ris2 n i w) = fst (scan guid ris2 ris1 n i w').
Proof.
  intros Hsym. induction n as [|n IH]; intros i w w'; [reflexivity|].
  cbn [scan]. unfold bind. rewrite !scan_position_run. unfold value_at.
  destruct (nth_error ris1 i) as [e1|], (nth_error ris2 i) as [e2|];
    try reflexivity.
  unfold strict_neq. rewrite (strict_eq_sym (value e2) (value e1)).
  destruct (strict_eq (value e1) (value e2)); cbn [negb]; [apply IH|].
  pose proof (decrypt_values_swap (value e1) (value e2) Hsym) as Hd.
  destruct (decrypt_values (value e1) (value e2)) as [d|e],
           (decrypt_values (value e2) (value e1)) as [d'|e'];
    try contradiction; [|apply IH].
  subst d'. destruct (prefix IDENT_STR d); [reflexivity|apply IH].
Qed.

Lemma scan_swap (guid : jsval) (ris1 ris2 : list RisElement) (n : nat) :
  (forall a b, decryptOTP a b = decryptOTP b a) ->
  (forall i e1 e2,
     nth_error ris1 i = Some e1 -> nth_error ris2 i = Some e2 ->
     (exists b, Buffer_from (value e1) = Ok b) \/
     (exists b, Buffer_from (value e2) = Ok b)) ->
  forall (i : nat) (w : world),
    scan guid ris1 ris2 n i w = scan guid ris2 ris1 n i w.
Proof.
  intros Hsym Hbuf. induction n as [|n IH]; intros i w; [reflexivity|].
  cbn [scan]. unfold bind. rewrite !scan_position_run. unfold value_at.
  destruct (nth_error ris1 i) as [e1|] eqn:H1,
           (nth_error ris2 i) as [e2|] eqn:H2; try reflexivity.
  unfold strict_neq. rewrite (strict_eq_sym (value e2) (value e1)).
  rewrite (decrypt_values_sym (value e2) (value e1) Hsym);
    [|destruct (Hbuf i e1 e2 H1 H2); [right|left]; assumption].
  destruct (strict_eq (value e1) (value e2)); cbn [negb]; [apply IH|].
  destruct (decrypt_values (value e1) (value e2)) as [d|e]; [|apply IH].
  destruct (prefix IDENT_STR d); [reflexivity|apply IH].
Qed.

(** X15: with a decoder that is symmetric in its two operands, the order
    in which the two transcripts are passed does not change the outcome,
    value returned or error thrown.  The lines on the console are the same
    too when at every position [Buffer.from] takes at least one of the two
    values (where it refuses both, the error logged names the value it met
    first). *)
Theorem determineCheater_order_irrelevant
    (guid : jsval) (ris1 ris2 : list RisElement) (w : world) :
  (forall a b, decryptOTP a b = decryptOTP b a) ->
  fst (determineCheater guid (JArray ris1) (JArray ris2) w)
  = fst (determineCheater guid (JArray ris2) (JArray ris1) w) /\
  ((forall i e1 e2,
      nth_error ris1 i = Some e1 -> nth_error ris2 i = Some e2 ->
      (exists b, Buffer_from (value e1) = Ok b) \/
      (exists b, Buffer_from (value e2) = Ok b)) ->
   determineCheater guid (JArray ris1) (JArray ris2) w
   = determineCheater guid (JArray ris2) (JArray ris1) w).
Proof.
  intros Hsym. split.
  - rewrite !determineCheater_run.
    pose proof (scan_swap_verdict guid ris1 ris2 COIN_RIS_LENGTH Hsym 0 w w)
      as H.
    destruct (scan guid ris1 ris2 COIN_RIS_LENGTH 0 w) as [[[p|]|e] w1];
      destruct (scan guid ris2 ris1 COIN_RIS_LENGTH 0 w) as [[[p'|]|e'] w1'];
      cbn in H |- *; congruence.
  - intros Hbuf. rewrite !determineCheater_run.
    rewrite (scan_swap guid ris1 ris2 COIN_RIS_LENGTH Hsym Hbuf). reflexivity.
Qed.

End Driver.

(** ** The one-time pad of the spec realises the share contract *)

Lemma xor_byte_cancel (a b : byte) : xor_byte a (xor_byte a b) = b.
Proof.
  unfold xor_byte.
  destruct (Byte.to_bits a) as [a0 [a1 [a2 [a3 [a4 [a5 [a6 a7]]]]]]] eqn:Ea.
  destruct (Byte.to_bits b) as [b0 [b1 [b2 [b3 [b4 [b5 [b6 b7]]]]]]] eqn:Eb.
  rewrite Byte.to_bits_of_bits.
  rewrite <- !xorb_assoc, !xorb_nilpotent, !xorb_false_l.
  rewrite <- Eb. apply Byte.of_bits_to_bits.
Qed.

Lemma xor_byte_comm (a b : byte) : xor_byte a b = xor_byte b a.
Proof.
  unfold xor_byte.
  destruct (Byte.to_bits a) as [a0 [a1 [a2 [a3 [a4 [a5 [a6 a7]]]]]]].
  destruct (Byte.to_bits b) as [b0 [b1 [b2 [b3 [b4 [b5 [b6 b7]]]]]]].
  rewrite (xorb_comm a0), (xorb_comm a1), (xorb_comm a2), (xorb_comm a3),
    (xorb_comm a4), (xorb_comm a5), (xorb_comm a6), (xorb_comm a7).
  reflexivity.
Qed.

Lemma xor_bytes_comm (a : list byte) :
  forall b, xor_bytes a b = xor_bytes b a.
Proof.
  induction a as [|x a IH]; intros [|y b]; cbn; try reflexivity.
  rewrite xor_byte_comm, IH. reflexivity.
Qed.

Lemma xor_bytes_length (a : list byte) :
  forall b, length a = length b -> length (xor_bytes a b) = length a.
Proof.
  induction a as [|x a IH]; intros [|y b] H; cbn in *; try congruence.
  rewrite IH; congruence.
Qed.

Lemma xor_bytes_cancel (a : list byte) :
  forall b, length a = length b -> xor_bytes a (xor_bytes a b) = b.
Proof.
  induction a as [|x a IH]; intros [|y b] H; cbn in *; try congruence.
  rewrite xor_byte_cancel, IH; congruence.
Qed.

Lemma list_byte_of_string_length (s : string) :
  length (list_byte_of_string s) = String.length s.
Proof.
  unfold list_byte_of_string. rewrite length_map.
  induction s as [|c s IH]; cbn; congruence.
Qed.

Lemma left_share_length (ident purchaser : string) (pads : nat -> nat -> byte)
    (i : nat) :
  length (left_share ident purchaser pads i)
  = length (list_byte_of_string (identity_string ident purchaser)).
Proof.
  unfold left_share.
  rewrite length_map, length_seq, list_byte_of_string_length. reflexivity.
Qed.

(** Both orders of combining the two shares give the identity string. *)
Lemma otp_decrypt_shares (ident purchaser : string) (pads : nat -> nat -> byte)
    (i : nat) :
  otp_decrypt (left_share ident purchaser pads i)
    (right_share ident purchaser pads i)
  = Ok (identity_string ident purchaser) /\
  otp_decrypt (right_share ident purchaser pads i)
    (left_share ident purchaser pads i)
  = Ok (identity_string ident purchaser).
Proof.
  pose proof (left_share_length ident purchaser pads i) as Hlen.
  assert (Hr : length (right_share ident purchaser pads i)
               = length (left_share ident purchaser pads i))
    by (apply xor_bytes_length; exact Hlen).
  unfold otp_decrypt. rewrite Hr, Nat.eqb_refl.
  rewrite (xor_bytes_comm (right_share ident purchaser pads i)).
  unfold right_share, buffer_toString.
  rewrite (xor_bytes_cancel _ _ Hlen), string_of_list_byte_of_string.
  split; reflexivity.
Qed.

(** The coin of the spec keeps the contract the driver relies on, for
    every choice of pads. *)
Lemma spec_coin_reveals_identity (n : nat) (ident purchaser : string)
    (pads : nat -> nat -> byte) (sig id : jsval) (text : string) :
  reveals_identity n ident otp_decrypt
    (spec_coin n ident purchaser pads sig id text) purchaser.
Proof.
  intros i Hi.
  exists (JBuffer (2 * i) (left_share ident purchaser pads i)),
         (JBuffer (2 * i + 1) (right_share ident purchaser pads i)).
  apply Nat.ltb_lt in Hi. cbn [getRis spec_coin]. rewrite Hi.
  split; [reflexivity|]. split; [reflexivity|].
  exact (otp_decrypt_shares ident purchaser pads i).
Qed.

(** ** Concrete runs

    Two positions, the sentinel ["IDENT"], the one-time pad of the spec and
    the stand-ins above. *)

Local Abbreviation sample_determineCheater :=
  (determineCheater 2 "IDENT" otp_decrypt).
Local Abbreviation sample_verifySignature :=
  (verifySignature Z sample_BigInteger 33%Z 3%Z sample_verify).
Local Abbreviation sample_acceptCoin :=
  (acceptCoin 2 sample_hash Z sample_BigInteger 33%Z 3%Z sample_verify
     sample_draws).



(** The same transcript deposited twice, and two transcripts that
    disclosed the same sides. *)
Lemma determineCheater_merchant_witness :
  (exists w',
     sample_determineCheater (JString "c0ffee")
       (JArray transcript_LR) (JArray transcript_LR) world0
     = (Ok (JString "merchant"), w') /\
     ends_with w' (ConsoleLog (merchant_line (JString "c0ffee")))) /\
  (exists w',
     sample_determineCheater (JString "c0ffee")
       (JArray transcript_RR) (JArray transcript_RR) world0
     = (Ok (JString "merchant"), w') /\
     ends_with w' (ConsoleLog (merchant_line (JString "c0ffee")))).
Proof.
  destruct (determineCheater_merchant 2 "IDENT" otp_decrypt
              (JString "c0ffee") world0) as [Hsame Hsilent].
  split.
  - apply Hsame. reflexivity.
  - apply Hsilent; [reflexivity | reflexivity |].
    intros i Hi. apply identifies_self.
Defined.

(** A transcript of three elements where two are expected goes through:
    the call reports the merchant. *)
Lemma determineCheater_accepts_long_transcript :
  ~ (forall ris1 ris2 : list RisElement,
       length ris1 <> 2 \/ length ris2 <> 2 ->
       exists e w',
         sample_determineCheater (JString "c0ffee")
           (JArray ris1) (JArray ris2) world0
         = (Throw e, w')).
Proof.
  intros H.
  destruct (H transcript_long transcript_long) as (e & w' & He).
  - left. cbn. lia.
  - vm_compute in He. discriminate He.
Qed.

Lemma determineCheater_format_check_witness :
  sample_determineCheater (JString "c0ffee")
    (JArray (transcript_LL ++ [right_element 0]))
    (JArray (transcript_RR ++ [left_element 0; left_element 1])) world0
  = sample_determineCheater (JString "c0ffee")
      (JArray transcript_LL) (JArray transcript_RR) world0.
Proof.
  apply (determineCheater_format_check 2 "IDENT" otp_decrypt
           (JString "c0ffee") world0); reflexivity.
Defined.

(** [Buffer.from] throws at position 0, position 1 still unmasks alice. *)
Lemma determineCheater_recovers_decode_errors_witness :
  (exists v w',
     sample_determineCheater (JString "c0ffee")
       (JArray transcript_garbled_1) (JArray transcript_garbled_2) world0
     = (Ok v, w')) /\
  sample_determineCheater (JString "c0ffee")
    (JArray transcript_garbled_1) (JArray transcript_garbled_2) world0
  = (Ok (JString "alice"),
     mkWorld 0
       [ConsoleError
          "Decryption failed: The first argument must be of type string or an instance of Buffer, ArrayBuffer, or Array or an Array-like Object. Received type number (1)";
        ConsoleLog (fraud_line (JString "c0ffee") (JString "alice"))]).
Proof.
  destruct (determineCheater_recovers_decode_errors 2 "IDENT" otp_decrypt
              (JString "c0ffee") transcript_garbled_1 transcript_garbled_2)
    as (Hstep & Hret & _).
  split.
  - apply Hret; cbn; lia.
  - unfold determineCheater, bind.
    rewrite (Hstep 1 0
               (mkError TypeError
                  "The first argument must be of type string or an instance of Buffer, ArrayBuffer, or Array or an Array-like Object. Received type number (1)")
               world0); reflexivity.
Defined.

(** Without a signature the coin is refused and nothing is challenged. *)
Lemma acceptCoin_invalid_signature_witness :
  sample_acceptCoin (Some alice_hashes) unsigned_coin world0
  = (Throw (mkError Error "Invalid coin signature: Potential forgery detected"),
     mkWorld 0
       [ConsoleError
          "Verification error: Cannot read properties of undefined (reading 'toString')"]).
Proof.
  apply (acceptCoin_invalid_signature 2 sample_hash Z sample_BigInteger
           33%Z 3%Z sample_verify sample_draws (Some alice_hashes)
           unsigned_coin world0).
  reflexivity.
Defined.

(** Forged commitments at position 1: position 0 passes, position 1
    aborts the acceptance. *)
Lemma acceptCoin_tamper_aborts_witness :
  sample_acceptCoin (Some forged_hashes) alice_coin world0
  = (Throw (mkError Error "RIS validation failed at position 1"),
     mkWorld 2 [RandomInt 0; GetRis true 0; RandomInt 0; GetRis true 1]).
Proof.
  apply (acceptCoin_tamper_aborts 2 sample_hash Z sample_BigInteger
           33%Z 3%Z sample_verify sample_draws (Some forged_hashes)
           alice_coin forged_hashes "coin"
           forged_leftHashes forged_rightHashes
           world0 world0 1).
  - reflexivity.
  - reflexivity.
  - reflexivity.
  - reflexivity.
  - lia.
  - intros j Hj. assert (j = 0) as -> by lia. vm_compute. reflexivity.
  - vm_compute. reflexivity.
Defined.

(** In the scope of [driver.js] the signed coin of alice is never
    accepted. *)
Lemma acceptCoin_parseCoin_undefined_witness :
  sample_acceptCoin None alice_coin world0
  = (Throw (mkError ReferenceError "parseCoin is not defined"), world0).
Proof.
  apply (acceptCoin_parseCoin_undefined 2 sample_hash Z sample_BigInteger
           33%Z 3%Z sample_verify sample_draws None alice_coin world0).
  - reflexivity.
  - reflexivity.
Defined.

(** With a [parseCoin] in scope the first merchant gets the two left
    shares. *)
Lemma acceptCoin_transcript_witness :
  sample_acceptCoin (Some alice_hashes) alice_coin world0
  = (Ok transcript_LL,
     mkWorld 2 [RandomInt 0; GetRis true 0; RandomInt 0; GetRis true 1]) /\
  length transcript_LL = 2.
Proof.
  split; [reflexivity|].
  apply (acceptCoin_transcript 2 sample_hash Z sample_BigInteger
           33%Z 3%Z sample_verify sample_draws (Some alice_hashes)
           alice_coin world0 transcript_LL
           (mkWorld 2 [RandomInt 0; GetRis true 0; RandomInt 0; GetRis true 1])).
  reflexivity.
Defined.

(** Two merchants accept the coin of alice one after the other; the
    verdict on their transcripts is alice or the merchant. *)
Lemma determineCheater_alice_or_merchant_witness :
  exists v w',
    sample_determineCheater (JString "c0ffee")
      (JArray transcript_LL) (JArray transcript_RR) world0
    = (Ok v, w') /\
    (v = JString "alice" \/ v = JString "merchant").
Proof.
  apply (determineCheater_alice_or_merchant 2 "IDENT" otp_decrypt sample_hash
           Z sample_BigInteger 33%Z 3%Z sample_verify sample_draws
           (Some alice_hashes) alice_coin (JString "c0ffee")
           world0
           (mkWorld 2 [RandomInt 0; GetRis true 0; RandomInt 0; GetRis true 1])
           (mkWorld 2 [RandomInt 0; GetRis true 0; RandomInt 0; GetRis true 1])
           (mkWorld 4 [RandomInt 0; GetRis true 0; RandomInt 0; GetRis true 1;
                       RandomInt 1; GetRis false 0; RandomInt 1; GetRis false 1])
           world0 transcript_LL transcript_RR).
  - reflexivity.
  - apply spec_coin_reveals_identity.
  - reflexivity.
  - reflexivity.
Defined.

(** An unsigned coin does not verify, and no exception comes out. *)
Lemma verifySignature_never_throws_witness :
  sample_verifySignature unsigned_coin world0
  = (Ok false,
     mkWorld 0
       [ConsoleError
          "Verification error: Cannot read properties of undefined (reading 'toString')"]) /\
  sample_verifySignature alice_coin world0 = (Ok true, world0).
Proof.
  destruct (verifySignature_never_throws Z sample_BigInteger 33%Z 3%Z
              sample_verify unsigned_coin world0) as (_ & Herr & _).
  destruct (verifySignature_never_throws Z sample_BigInteger 33%Z 3%Z
              sample_verify alice_coin world0) as (_ & _ & _ & Hok).
  split.
  - apply (Herr (mkError TypeError
                   "Cannot read properties of undefined (reading 'toString')")).
    reflexivity.
  - apply (Hok "16" 16%Z "coin" true); reflexivity.
Defined.

(** ** Concrete runs of the issuance, of [main] and of the edge cases *)

Local Abbreviation sample_signCoin :=
  (signCoin Z sample_BigInteger Z 7%Z sample_sign string_of_Z).
Local Abbreviation sample_main parseCoin :=
  (main 2 "IDENT" otp_decrypt sample_hash Z sample_BigInteger 33%Z 3%Z
     sample_verify sample_draws parseCoin Z 7%Z sample_sign string_of_Z
     sample_new_Coin sample_blinded sample_unblind).

Lemma spec_coin_distinct_shares (n : nat) (ident purchaser : string)
    (pads : nat -> nat -> byte) (sig id : jsval) (text : string) :
  distinct_shares n (spec_coin n ident purchaser pads sig id text).
Proof.
  intros i l r Hi Hl Hr. apply Nat.ltb_lt in Hi.
  cbn [getRis spec_coin] in Hl, Hr. rewrite Hi in Hl, Hr.
  injection Hl as <-. injection Hr as <-.
  unfold strict_neq. cbn [strict_eq].
  apply negb_true_iff, Nat.eqb_neq. lia.
Qed.



(** With a [parseCoin] in scope [main] runs to its end. *)
Lemma main_returns_on_merchant_report_witness :
  fst (sample_main (Some alice_hashes) world0) = Returned /\
  rng_calls (snd (sample_main (Some alice_hashes) world0)) = 4.
Proof.
  split; [reflexivity|].
  apply (main_returns_on_merchant_report 2 "IDENT" otp_decrypt sample_hash Z
           sample_BigInteger 33%Z 3%Z sample_verify sample_draws
           (Some alice_hashes) Z 7%Z sample_sign string_of_Z
           sample_new_Coin sample_blinded sample_unblind world0
           (snd (sample_main (Some alice_hashes) world0))).
  reflexivity.
Defined.

Lemma determineCheater_accepts_transcripts_witness :
  exists v w',
    sample_determineCheater (JString "c0ffee")
      (JArray transcript_LL) (JArray transcript_RR) world0
    = (Ok v, w').
Proof.
  apply (determineCheater_accepts_transcripts 2 "IDENT" otp_decrypt
           sample_hash Z sample_BigInteger 33%Z 3%Z sample_verify sample_draws
           (Some alice_hashes) alice_coin alice_coin (JString "c0ffee")
           world0
           (mkWorld 2 [RandomInt 0; GetRis true 0; RandomInt 0; GetRis true 1])
           (mkWorld 2 [])
           (mkWorld 4 [RandomInt 1; GetRis false 0; RandomInt 1; GetRis false 1])
           world0 transcript_LL transcript_RR); reflexivity.
Defined.

(** Draws 0, 1 and draws 4, 5 all choose left. *)
Lemma determineCheater_same_sides_merchant_witness :
  exists w',
    sample_determineCheater (JString "c0ffee")
      (JArray transcript_LL) (JArray transcript_LL) world0
    = (Ok (JString "merchant"), w').
Proof.
  apply (determineCheater_same_sides_merchant 2 "IDENT" otp_decrypt
           sample_hash Z sample_BigInteger 33%Z 3%Z sample_verify sample_draws
           (Some alice_hashes) alice_coin (JString "c0ffee")
           world0
           (mkWorld 2 [RandomInt 0; GetRis true 0; RandomInt 0; GetRis true 1])
           (mkWorld 4 [])
           (mkWorld 6 [RandomInt 0; GetRis true 0; RandomInt 0; GetRis true 1])
           world0 transcript_LL transcript_LL).
  - reflexivity.
  - reflexivity.
  - intros i Hi. destruct i as [|[|i]]; [reflexivity | reflexivity | lia].
Defined.

Lemma determineCheater_different_sides_identify_witness :
  exists w',
    sample_determineCheater (JString "c0ffee")
      (JArray transcript_LL) (JArray transcript_RR) world0
    = (Ok (JString "alice"), w').
Proof.
  apply (determineCheater_different_sides_identify 2 "IDENT" otp_decrypt
           sample_hash Z sample_BigInteger 33%Z 3%Z sample_verify sample_draws
           (Some alice_hashes) alice_coin "alice" (JString "c0ffee")
           world0
           (mkWorld 2 [RandomInt 0; GetRis true 0; RandomInt 0; GetRis true 1])
           (mkWorld 2 [])
           (mkWorld 4 [RandomInt 1; GetRis false 0; RandomInt 1; GetRis false 1])
           world0 transcript_LL transcript_RR 1).
  - reflexivity.
  - reflexivity.
  - apply spec_coin_reveals_identity.
  - apply spec_coin_distinct_shares.
  - reflexivity.
  - reflexivity.
  - lia.
  - discriminate.
Defined.

(** A transcript of one element where two are expected. *)
Lemma determineCheater_short_transcript_witness :
  exists w',
    sample_determineCheater (JString "c0ffee")
      (JArray [left_element 0]) (JArray transcript_LL) world0
    = (Throw (mkError TypeError
                "Cannot read properties of undefined (reading 'value')"), w').
Proof.
  apply (determineCheater_short_transcript 2 "IDENT" otp_decrypt
           (JString "c0ffee") [left_element 0] transcript_LL world0).
  - cbn. lia.
  - intros j Hj. cbn in Hj. assert (j = 0) as -> by lia. reflexivity.
Defined.

(** The flags and commitments of the transcript are rewritten, the verdict
    stays. *)
Lemma determineCheater_reads_values_only_witness :
  fst (sample_determineCheater (JString "c0ffee")
         (JArray transcript_LL) (JArray transcript_RR) world0)
  = fst (sample_determineCheater JNull
           (JArray (map (fun r => mkRis 7 (negb (isLeft r)) (value r) JNull)
                      transcript_LL))
           (JArray transcript_RR) (mkWorld 9 [RandomInt 1])).
Proof.
  apply (determineCheater_reads_values_only 2 "IDENT" otp_decrypt);
    reflexivity.
Defined.

(** The two values combine to "IDENT", which holds no colon. *)
Lemma determineCheater_undefined_purchaser_witness :
  exists w',
    sample_determineCheater (JString "c0ffee")
      (JArray transcript_zeros) (JArray transcript_nocolon) world0
    = (Ok JUndefined, w') /\
    ends_with w'
      (ConsoleLog (nl ++ "[FRAUD DETECTED] Coin c0ffee was double-spent by: undefined")).
Proof.
  apply (determineCheater_undefined_purchaser 2 "IDENT" otp_decrypt
           (JString "c0ffee") transcript_zeros transcript_nocolon 0 "IDENT"
           world0).
  - lia.
  - intros j Hj. lia.
  - reflexivity.
  - reflexivity.
Defined.

(** The identity "al:ice" is returned as "al". *)
Lemma determineCheater_cuts_at_colon_witness :
  exists w',
    sample_determineCheater (JString "c0ffee")
      (JArray transcript_zeros) (JArray transcript_twocolons) world0
    = (Ok (JString "al"), w').
Proof.
  apply (determineCheater_cuts_at_colon 2 "IDENT" otp_decrypt
           (JString "c0ffee") transcript_zeros transcript_twocolons 1
           "IDENT" "al" "ice" world0).
  - lia.
  - intros j Hj. assert (j = 0) as -> by lia. reflexivity.
  - reflexivity.
  - reflexivity.
  - reflexivity.
Defined.

(** [Buffer.from] refuses the values of position 0, position 1 unmasks
    alice: one error line, then the fraud report. *)
Lemma determineCheater_trace_witness :
  events (snd (sample_determineCheater (JString "c0ffee")
                 (JArray transcript_garbled_1) (JArray transcript_garbled_2)
                 world0))
  = [ConsoleError
       "Decryption failed: The first argument must be of type string or an instance of Buffer, ArrayBuffer, or Array or an Array-like Object. Received type number (1)";
     ConsoleLog (fraud_line (JString "c0ffee") (JString "alice"))].
Proof.
  destruct (determineCheater_trace 2 "IDENT" otp_decrypt (JString "c0ffee")
              transcript_garbled_1 transcript_garbled_2 world0 (JString "alice")
              (snd (sample_determineCheater (JString "c0ffee")
                      (JArray transcript_garbled_1)
                      (JArray transcript_garbled_2) world0)) eq_refl)
    as (_ & k & _ & [(_ & Hv & _)|(Hk & d & Hd & _ & He)]).
  - discriminate Hv.
  - destruct k as [|[|k]]; [discriminate Hd | exact He | lia].
Defined.

Lemma acceptCoin_challenges_each_position_once_witness :
  events (snd (sample_acceptCoin (Some alice_hashes) alice_coin
                 (mkWorld 2 [ConsoleLog "Merchant 1 accepted coin"])))
  = [ConsoleLog "Merchant 1 accepted coin";
     RandomInt 1; GetRis false 0; RandomInt 1; GetRis false 1].
Proof.
  apply (acceptCoin_challenges_each_position_once 2 sample_hash Z
           sample_BigInteger 33%Z 3%Z sample_verify sample_draws
           (Some alice_hashes) alice_coin
           (mkWorld 2 [ConsoleLog "Merchant 1 accepted coin"])
           transcript_RR
           (snd (sample_acceptCoin (Some alice_hashes) alice_coin
                   (mkWorld 2 [ConsoleLog "Merchant 1 accepted coin"])))).
  reflexivity.
Defined.

(** The share of position 1 cannot be read: the error of [getRis] comes
    out of [acceptCoin]. *)
Lemma acceptCoin_propagates_challenge_errors_witness :
  sample_acceptCoin (Some alice_hashes) broken_coin world0
  = (Throw (mkError Error "share unavailable"),
     mkWorld 2 [RandomInt 0; GetRis true 0; RandomInt 0; GetRis true 1]).
Proof.
  apply (acceptCoin_propagates_challenge_errors 2 sample_hash Z
           sample_BigInteger 33%Z 3%Z sample_verify sample_draws
           (Some alice_hashes) broken_coin alice_hashes "coin"
           alice_leftHashes alice_rightHashes world0 world0 1
           (mkError Error "share unavailable")).
  - reflexivity.
  - reflexivity.
  - reflexivity.
  - reflexivity.
  - lia.
  - intros j Hj. assert (j = 0) as -> by lia. vm_compute. reflexivity.
  - reflexivity.
Defined.

(** One commitment per side for two positions. *)
Lemma acceptCoin_missing_commitment_witness :
  sample_acceptCoin (Some short_hashes) alice_coin world0
  = (Throw (mkError Error "RIS validation failed at position 1"),
     mkWorld 2 [RandomInt 0; GetRis true 0; RandomInt 0; GetRis true 1]).
Proof.
  apply (acceptCoin_missing_commitment 2 sample_hash Z
           sample_BigInteger 33%Z 3%Z sample_verify sample_draws
           (Some short_hashes) alice_coin short_hashes "coin"
           [commitment (left_share "IDENT" "alice" sample_pads 0)]
           [commitment (right_share "IDENT" "alice" sample_pads 0)]
           world0 world0 1
           (JBuffer 2 (left_share "IDENT" "alice" sample_pads 1))
           ("#" ++ buffer_toString (left_share "IDENT" "alice" sample_pads 1))).
  - reflexivity.
  - reflexivity.
  - reflexivity.
  - reflexivity.
  - lia.
  - intros j Hj. assert (j = 0) as -> by lia. vm_compute. reflexivity.
  - reflexivity.
  - reflexivity.
  - cbn. lia.
Defined.

Lemma otp_decrypt_sym (a b : list byte) : otp_decrypt a b = otp_decrypt b a.
Proof.
  unfold otp_decrypt. rewrite (Nat.eqb_sym (length a)), (xor_bytes_comm a).
  reflexivity.
Qed.

(** The second merchant's transcript first, or the first merchant's; and
    two transcripts whose first values [Buffer.from] refuses. *)
Lemma determineCheater_order_irrelevant_witness :
  sample_determineCheater (JString "c0ffee")
    (JArray transcript_RR) (JArray transcript_LR) world0
  = sample_determineCheater (JString "c0ffee")
      (JArray transcript_LR) (JArray transcript_RR) world0 /\
  fst (sample_determineCheater (JString "c0ffee")
         (JArray transcript_garbled_1) (JArray transcript_garbled_2) world0)
  = fst (sample_determineCheater (JString "c0ffee")
           (JArray transcript_garbled_2) (JArray transcript_garbled_1) world0).
Proof.
  split.
  - apply (determineCheater_order_irrelevant 2 "IDENT" otp_decrypt
             (JString "c0ffee") transcript_RR transcript_LR world0
             otp_decrypt_sym).
    intros i e1 e2 H1 H2. left.
    destruct i as [|[|[|i]]]; cbn in H1; try discriminate;
      injection H1 as <-; eexists; reflexivity.
  - apply (determineCheater_order_irrelevant 2 "IDENT" otp_decrypt
             (JString "c0ffee") transcript_garbled_1 transcript_garbled_2
             world0 otp_decrypt_sym).
Defined.
